(** * Inference service ([Monitor dan Logging/7.inference.py])

    A shallow embedding of the Flask inference script: the module-level
    artifact loader, the [/health] endpoint and the [/predict] endpoint,
    followed by the properties the service is specified to have.

    The script talks to four collaborators it does not define: the file
    system, Keras ([load_model], [Model.predict]), joblib/scikit-learn
    ([joblib.load], [scaler.transform]) and NumPy ([np.array], [reshape],
    comparison, [astype], indexing).  The first three are opaque and enter
    the model as functions of a [host] and of the loaded objects; the NumPy
    operations the handler performs are modelled on shape and row-major
    data. *)

From Stdlib Require Import List String ZArith Bool Arith Lia Floats.
From Stdlib Require Import DecimalString Sorted.
Import ListNotations.

Local Open Scope string_scope.
Local Open Scope list_scope.

(** ** Python values, exceptions and outcomes *)

(** The values [json.loads] can produce (and that [jsonify] serialises).
    The induction principle is stated by hand below, with the hypothesis on
    list elements that a generated one would lack. *)
Unset Elimination Schemes.
Inductive pyval : Type :=
| PyNone
| PyBool (b : bool)
| PyInt (z : Z)
| PyFloat (f : float)
| PyStr (s : string)
| PyList (l : list pyval)
| PyDict (d : list (string * pyval)).
Set Elimination Schemes.

(** Induction on Python values, with the hypothesis for the elements of a
    list and the values of a dict. *)
Fixpoint pyval_ind (P : pyval -> Prop)
  (HNone : P PyNone)
  (HBool : forall b, P (PyBool b))
  (HInt : forall z, P (PyInt z))
  (HFloat : forall f, P (PyFloat f))
  (HStr : forall s, P (PyStr s))
  (HList : forall l, Forall P l -> P (PyList l))
  (HDict : forall d, Forall (fun kv => P (snd kv)) d -> P (PyDict d))
  (v : pyval) {struct v} : P v :=
  let rec := pyval_ind P HNone HBool HInt HFloat HStr HList HDict in
  match v with
  | PyNone => HNone
  | PyBool b => HBool b
  | PyInt z => HInt z
  | PyFloat f => HFloat f
  | PyStr s => HStr s
  | PyList l =>
      HList l ((fix go (l : list pyval) : Forall P l :=
                  match l with
                  | [] => Forall_nil P
                  | x :: r => Forall_cons x (rec x) (go r)
                  end) l)
  | PyDict d =>
      HDict d ((fix go (d : list (string * pyval)) : Forall (fun kv => P (snd kv)) d :=
                  match d with
                  | [] => Forall_nil _
                  | kv :: r => Forall_cons kv (rec (snd kv)) (go r)
                  end) d)
  end.

(** Instances of [Exception].  [OtherError] stands for any class the
    collaborators raise that the script itself never distinguishes
    (werkzeug's [BadRequest], [OSError], ...). *)
Inductive exn : Type :=
| KeyError (key : string)
| TypeError (msg : string)
| ValueError (msg : string)
| IndexError (msg : string)
| OtherError (cls msg : string).

(** [repr] of a [str] without quotes, backslashes or control characters. *)
Definition py_repr_str (s : string) : string := "'" ++ s ++ "'".

(** [str(e)]: the message, except for [KeyError], whose [str] is the
    [repr] of the missing key. *)
Definition str_exn (e : exn) : string :=
  match e with
  | KeyError k => py_repr_str k
  | TypeError m | ValueError m | IndexError m => m
  | OtherError _ m => m
  end.

(** The result of evaluating an expression: a value, or a raised exception. *)
Inductive outcome (A : Type) : Type :=
| Ret (a : A)
| Raise (e : exn).
Arguments Ret {A} a.
Arguments Raise {A} e.

(** ** N-dimensional arrays: a shape and the elements in row-major order *)

Record ndarray (A : Type) : Type := mk_ndarray {
  shape : list nat;
  data : list A
}.
Arguments mk_ndarray {A} shape data.
Arguments shape {A} n.
Arguments data {A} n.

(** ** The collaborators *)

Module Sklearn.
(** What [joblib.load] returns: an object with a [transform] method.  The
    input array holds the request's Python scalars (NumPy's dtype
    unification is a function of those elements and is left to the
    consumer); the output is a float array. *)
Record Scaler : Type := {
  transform : ndarray pyval -> outcome (ndarray float)
}.
End Sklearn.

Module Keras.
(** What [tf.keras.models.load_model] returns: an object with a [predict]
    method.  A [float32] output is read as the binary64 value it denotes
    exactly. *)
Record Model : Type := {
  predict : ndarray float -> outcome (ndarray float)
}.
End Keras.

(** A resolved absolute POSIX path, as its components. *)
Definition path : Type := list string.

Definition parent (p : path) : path := removelast p.

Definition joinpath (p : path) (c : string) : path := p ++ [c].

Fixpoint str_path_aux (p : path) : string :=
  match p with
  | [] => EmptyString
  | c :: q => "/" ++ c ++ str_path_aux q
  end.

Definition str_path (p : path) : string :=
  match p with
  | [] => "/"
  | _ => str_path_aux p
  end.

(** What the process finds around it at import time. *)
Record host : Type := {
  script_file : path;                           (* Path(__file__).resolve() *)
  path_exists : path -> bool;                   (* Path.exists *)
  load_model : path -> outcome Keras.Model;     (* tf.keras.models.load_model *)
  joblib_load : path -> outcome Sklearn.Scaler  (* joblib.load *)
}.

(** ** Process state and the effects of the script *)

(** Observable actions, in the order they happen. *)
Inductive event : Type :=
| EPrint (line : string)
| ELoadModel (p : path)
| EJoblibLoad (p : path)
| EGetJson
| ETransform (X : ndarray pyval)
| EPredict (X : ndarray float).

(** The module globals [model] and [scaler], and the actions so far. *)
Record world : Type := mk_world {
  model : option Keras.Model;
  scaler : option Sklearn.Scaler;
  trace : list event
}.

(** Before the loader runs. *)
Definition init_world : world :=
  {| model := None; scaler := None; trace := [] |}.

(** A computation reads and writes the world and returns or raises.  A raise
    keeps the writes made before it, as in Python: nothing is rolled back. *)
Definition M (A : Type) : Type := world -> outcome A * world.

Definition ret {A} (a : A) : M A := fun w => (Ret a, w).

Definition raise {A} (e : exn) : M A := fun w => (Raise e, w).

Definition bind {A B} (c : M A) (k : A -> M B) : M B :=
  fun w =>
    match c w with
    | (Ret a, w') => k a w'
    | (Raise e, w') => (Raise e, w')
    end.

(** [try: c  except Exception as e: h e] *)
Definition try_except {A} (c : M A) (h : exn -> M A) : M A :=
  fun w =>
    match c w with
    | (Ret a, w') => (Ret a, w')
    | (Raise e, w') => h e w'
    end.

Definition lift {A} (o : outcome A) : M A := fun w => (o, w).

(** Sequencing of expressions that touch no state: the first raise wins. *)
Definition obind {A B} (o : outcome A) (k : A -> outcome B) : outcome B :=
  match o with
  | Ret a => k a
  | Raise e => Raise e
  end.

Declare Scope py_scope.
Delimit Scope py_scope with py.
Notation "x <- c ;; k" := (bind c (fun x => k))
  (at level 61, c at next level, right associativity) : py_scope.
Notation "c ;; k" := (bind c (fun _ => k))
  (at level 61, right associativity) : py_scope.
Notation "'let?' x ':=' o 'in' k" := (obind o (fun x => k))
  (at level 10, x name, o at level 100, k at level 200) : py_scope.
Local Open Scope py_scope.

Definition get_model : M (option Keras.Model) := fun w => (Ret (model w), w).

Definition get_scaler : M (option Sklearn.Scaler) := fun w => (Ret (scaler w), w).

Definition set_model (m : option Keras.Model) : M unit :=
  fun w => (Ret tt, {| model := m; scaler := scaler w; trace := trace w |}).

Definition set_scaler (s : option Sklearn.Scaler) : M unit :=
  fun w => (Ret tt, {| model := model w; scaler := s; trace := trace w |}).

Definition emit (ev : event) : M unit :=
  fun w => (Ret tt, {| model := model w; scaler := scaler w; trace := trace w ++ [ev] |}).

Definition print (line : string) : M unit := emit (EPrint line).

(** A call to a collaborator: recorded, then its outcome. *)
Definition call {A} (ev : event) (o : outcome A) : M A := emit ev ;; lift o.

(** ** HTTP responses *)

Record response : Type := mk_response {
  status : nat;
  body : pyval
}.

(** [jsonify(d)] alone answers 200; [jsonify(d), code] answers [code]. *)
Definition jsonify (d : list (string * pyval)) : response :=
  {| status := 200; body := PyDict d |}.

Definition with_status (r : response) (code : nat) : response :=
  {| status := code; body := body r |}.

(** ** The artifact loader (module level, lines 17-41) *)

Definition BASE_DIR (h : host) : path :=
  joinpath (parent (parent (script_file h))) "Membangun_model".

Definition MODEL_PATH (h : host) : path :=
  joinpath (joinpath (BASE_DIR h) "artifacts") "baseline_model.h5".

Definition SCALER_PATH (h : host) : path :=
  joinpath (joinpath (BASE_DIR h) "artifacts") "scaler.pkl".

Definition load_artifacts (h : host) : M unit :=
  set_model None ;;
  set_scaler None ;;
  try_except
    ((if path_exists h (MODEL_PATH h) then
        m <- call (ELoadModel (MODEL_PATH h)) (load_model h (MODEL_PATH h)) ;;
        set_model (Some m) ;;
        print "Model loaded successfully."
      else
        print ("Warning: Model not found at " ++ str_path (MODEL_PATH h))) ;;
     (if path_exists h (SCALER_PATH h) then
        s <- call (EJoblibLoad (SCALER_PATH h)) (joblib_load h (SCALER_PATH h)) ;;
        set_scaler (Some s) ;;
        print "Scaler loaded successfully."
      else
        print ("Warning: Scaler not found at " ++ str_path (SCALER_PATH h))))
    (fun e => print ("Error loading artifacts: " ++ str_exn e)).

(** The world the request handlers run in. *)
Definition startup (h : host) : world := snd (load_artifacts h init_world).

(** ** [GET /health] (lines 68-70) *)

Definition is_not_None {A} (o : option A) : bool :=
  match o with
  | Some _ => true
  | None => false
  end.

Definition health : M response :=
  m <- get_model ;;
  ret (jsonify [("status", PyStr "healthy"); ("model_loaded", PyBool (is_not_None m))]).

(** ** The NumPy operations of the handler *)

Definition prod (s : list nat) : nat := fold_right Nat.mul 1 s.

(** [a.size] *)
Definition size {A} (a : ndarray A) : nat := prod (shape a).

(** The scalars of a nested list, in row-major order.  Only lists nest: a
    string or a dict is one element. *)
Fixpoint leaves (v : pyval) : list pyval :=
  match v with
  | PyList l => flat_map leaves l
  | _ => [v]
  end.

Definition shape_eqb (s t : list nat) : bool :=
  if list_eq_dec Nat.eq_dec s t then true else false.

(** The one shape all the children have; [None] when they disagree. *)
Definition common_shape (ss : list (option (list nat))) : option (list nat) :=
  match ss with
  | [] => Some []
  | None :: _ => None
  | Some s :: rest =>
      if forallb (fun o => match o with
                           | Some t => shape_eqb s t
                           | None => false
                           end) rest
      then Some s else None
  end.

(** Shape discovery of [np.array]: [None] for a ragged nesting. *)
Fixpoint discover_shape (v : pyval) : option (list nat) :=
  match v with
  | PyList l =>
      match common_shape (map discover_shape l) with
      | Some s => Some (List.length l :: s)
      | None => None
      end
  | _ => Some []
  end.

Section Handler.

(** The largest number of dimensions of an array: 32 up to NumPy 1.26,
    64 from NumPy 2.0. *)
Variable NPY_MAXDIMS : nat.

(** [np.array(v)] (NumPy 1.24 and later: a ragged nesting is an error, not
    an object array).  The message texts are shortened. *)
Definition np_array (v : pyval) : outcome (ndarray pyval) :=
  match discover_shape v with
  | None =>
      Raise (ValueError "setting an array element with a sequence. The requested array has an inhomogeneous shape.")
  | Some s =>
      if (List.length s <=? NPY_MAXDIMS)%nat
      then Ret {| shape := s; data := leaves v |}
      else Raise (ValueError "setting an array element with a sequence. The requested array would exceed the maximum number of dimension.")
  end.

(** [a.reshape(d1, ..., dn)], with [None] for the one dimension that may be
    written [-1].  The data is kept; only the shape changes. *)
Definition np_reshape {A} (a : ndarray A) (newshape : list (option nat))
  : outcome (ndarray A) :=
  let known := prod (flat_map (fun d => match d with
                                        | Some k => [k]
                                        | None => []
                                        end) newshape) in
  match List.length (filter (fun d => negb (is_not_None d)) newshape) with
  | 0 =>
      if (known =? size a)%nat
      then Ret {| shape := map (fun d => match d with
                                         | Some k => k
                                         | None => 0
                                         end) newshape;
                  data := data a |}
      else Raise (ValueError "cannot reshape array into the requested shape")
  | 1 =>
      if (known =? 0)%nat || negb (size a mod known =? 0)%nat
      then Raise (ValueError "cannot reshape array into the requested shape")
      else Ret {| shape := map (fun d => match d with
                                         | Some k => k
                                         | None => size a / known
                                         end) newshape;
                  data := data a |}
  | _ => Raise (ValueError "can only specify one unknown dimension")
  end.

(** [a > x], elementwise *)
Definition np_gt (a : ndarray float) (x : float) : ndarray bool :=
  {| shape := shape a; data := map (fun p => PrimFloat.ltb x p) (data a) |}.

(** [a.astype(int)] on a boolean array *)
Definition np_astype_int (a : ndarray bool) : ndarray Z :=
  {| shape := shape a; data := map (fun b : bool => if b then 1%Z else 0%Z) (data a) |}.

(** [a[0]]: the first slice along axis 0.  An element of a 1-d array is a
    NumPy scalar, read here as a 0-d array; indexing either is an
    [IndexError]. *)
Definition np_getitem0 {A} (a : ndarray A) : outcome (ndarray A) :=
  match shape a with
  | [] => Raise (IndexError "invalid index to scalar variable.")
  | 0 :: _ => Raise (IndexError "index 0 is out of bounds for axis 0 with size 0")
  | S _ :: s => Ret {| shape := s; data := firstn (prod s) (data a) |}
  end.

(** [int(a)] and [float(a)] on a NumPy scalar or an array: the single
    element of a one-element array. *)
Definition np_item {A} (a : ndarray A) : outcome A :=
  match data a with
  | [x] => Ret x
  | _ => Raise (TypeError "only length-1 arrays can be converted to Python scalars")
  end.

(** ** [POST /predict] (lines 43-66) *)

(** [d[key]] on a dict given as its items *)
Fixpoint dict_get (d : list (string * pyval)) (key : string) : option pyval :=
  match d with
  | [] => None
  | (k, v) :: rest => if String.eqb k key then Some v else dict_get rest key
  end.

(** [v[key]] for a string key *)
Definition py_getitem (v : pyval) (key : string) : outcome pyval :=
  match v with
  | PyDict d =>
      match dict_get d key with
      | Some x => Ret x
      | None => Raise (KeyError key)
      end
  | PyList _ => Raise (TypeError "list indices must be integers or slices, not str")
  | PyStr _ => Raise (TypeError "string indices must be integers, not 'str'")
  | PyNone => Raise (TypeError "'NoneType' object is not subscriptable")
  | PyBool _ => Raise (TypeError "'bool' object is not subscriptable")
  | PyInt _ => Raise (TypeError "'int' object is not subscriptable")
  | PyFloat _ => Raise (TypeError "'float' object is not subscriptable")
  end.

(** A request, as the handler sees it: what [request.get_json(force=True)]
    gives, a parsed body or the exception it raises. *)
Record request : Type := {
  get_json : outcome pyval
}.

Definition not_initialized : response :=
  with_status (jsonify [("error", PyStr "Model or Scaler not initialized")]) 500.

Definition error_response (e : exn) : response :=
  with_status (jsonify [("error", PyStr (str_exn e))]) 400.

(** Line 52, [np.array(data['features']).reshape(1, -1)]. *)
Definition input_matrix (data : pyval) : outcome (ndarray pyval) :=
  let? features := py_getitem data "features" in
  let? arr := np_array features in
  np_reshape arr [Some 1; None].

(** Line 59, [(prediction_prob > 0.5).astype(int)[0][0]]. *)
Definition threshold_class (prediction_prob : ndarray float) : outcome (ndarray Z) :=
  let? row := np_getitem0 (np_astype_int (np_gt prediction_prob 0.5)) in
  np_getitem0 row.

(** Lines 61-64, the dict handed to [jsonify]: [int(prediction_class)],
    then [float(prediction_prob[0][0])]. *)
Definition success_response (prediction_class : ndarray Z)
  (prediction_prob : ndarray float) : outcome response :=
  let? c := np_item prediction_class in
  let? row := np_getitem0 prediction_prob in
  let? prob_00 := np_getitem0 row in
  let? p := np_item prob_00 in
  Ret (jsonify [("prediction_class", PyInt c); ("prediction_prob", PyFloat p)]).

(** The body of the [try] block, with the two loaded objects. *)
Definition predict_body (km : Keras.Model) (sc : Sklearn.Scaler) (req : request)
  : M response :=
  data <- call EGetJson (get_json req) ;;
  input_data <- lift (input_matrix data) ;;
  scaled_data <- call (ETransform input_data) (Sklearn.transform sc input_data) ;;
  prediction_prob <- call (EPredict scaled_data) (Keras.predict km scaled_data) ;;
  prediction_class <- lift (threshold_class prediction_prob) ;;
  lift (success_response prediction_class prediction_prob).

(** [not model or not scaler]: [None] is falsy, and a loaded Keras model or
    scikit-learn scaler is truthy (neither class defines [__bool__] or
    [__len__]), so the test fails exactly when both names are bound to
    objects. *)
Definition predict (req : request) : M response :=
  m <- get_model ;;
  s <- get_scaler ;;
  match m, s with
  | Some km, Some sc =>
      try_except (predict_body km sc req) (fun e => ret (error_response e))
  | _, _ => ret not_initialized
  end.

End Handler.

(** ** Vocabulary of the properties *)

(** A Python list, the only value [np.array] descends into. *)
Definition is_list (v : pyval) : bool :=
  match v with
  | PyList _ => true
  | _ => false
  end.

(** A JSON number. *)
Definition is_number (v : pyval) : bool :=
  match v with
  | PyInt _ | PyFloat _ => true
  | _ => false
  end.

(** The exception [e] is raised inside the [try] block of [predict], at one
    of its stages: parsing the body, building the input matrix, scaling,
    predicting, thresholding, building the answer. *)
Inductive raises_in_try (maxdims : nat) (km : Keras.Model) (sc : Sklearn.Scaler)
  (req : request) (e : exn) : Prop :=
| raises_parsing :
    get_json req = Raise e ->
    raises_in_try maxdims km sc req e
| raises_reshaping (data : pyval) :
    get_json req = Ret data ->
    input_matrix maxdims data = Raise e ->
    raises_in_try maxdims km sc req e
| raises_transforming (data : pyval) (X : ndarray pyval) :
    get_json req = Ret data ->
    input_matrix maxdims data = Ret X ->
    Sklearn.transform sc X = Raise e ->
    raises_in_try maxdims km sc req e
| raises_predicting (data : pyval) (X : ndarray pyval) (Y : ndarray float) :
    get_json req = Ret data ->
    input_matrix maxdims data = Ret X ->
    Sklearn.transform sc X = Ret Y ->
    Keras.predict km Y = Raise e ->
    raises_in_try maxdims km sc req e
| raises_thresholding (data : pyval) (X : ndarray pyval) (Y P : ndarray float) :
    get_json req = Ret data ->
    input_matrix maxdims data = Ret X ->
    Sklearn.transform sc X = Ret Y ->
    Keras.predict km Y = Ret P ->
    threshold_class P = Raise e ->
    raises_in_try maxdims km sc req e
| raises_answering (data : pyval) (X : ndarray pyval) (Y P : ndarray float)
    (c : ndarray Z) :
    get_json req = Ret data ->
    input_matrix maxdims data = Ret X ->
    Sklearn.transform sc X = Ret Y ->
    Keras.predict km Y = Ret P ->
    threshold_class P = Ret c ->
    success_response c P = Raise e ->
    raises_in_try maxdims km sc req e.

(** A probability: a float between 0 and 1 (so not a NaN). *)
Definition in_unit_interval (p : float) : bool :=
  ((0 <=? p) && (p <=? 1))%float.

(** An array of probabilities of the right size for its shape. *)
Definition probabilities (P : ndarray float) : Prop :=
  List.length (data P) = size P /\ forallb in_unit_interval (data P) = true.

(** What the two artifacts together do with an input matrix: scale, then
    predict. *)
Definition pipeline (sc : Sklearn.Scaler) (km : Keras.Model) (X : ndarray pyval)
  : outcome (ndarray float) :=
  let? Y := Sklearn.transform sc X in
  Keras.predict km Y.

(** A Python dict, the only value that can hold the key [features]. *)
Definition is_dict (v : pyval) : bool :=
  match v with
  | PyDict _ => true
  | _ => false
  end.

(** Both artifact files are in place and both loads return. *)
Definition both_artifacts_load (h : host) : Prop :=
  path_exists h (MODEL_PATH h) = true /\
  (exists km, load_model h (MODEL_PATH h) = Ret km) /\
  path_exists h (SCALER_PATH h) = true /\
  (exists sc, joblib_load h (SCALER_PATH h) = Ret sc).

(** The world after a run of [/predict] requests, handled one after the
    other. *)
Definition serve (maxdims : nat) (reqs : list request) (w : world) : world :=
  fold_left (fun w' req => snd (predict maxdims req w')) reqs w.

(** ** Concrete collaborators, for running the script *)

Module Demo.

(** A scaler in the manner of [StandardScaler]: it accepts a matrix whose
    column count is the length of [mean], holding floats, and returns
    [(x - mean) / scale] column by column; anything else is a
    [ValueError]. *)
Fixpoint standardize (xs : list pyval) (mean scale : list float)
  : option (list float) :=
  match xs, mean, scale with
  | [], _, _ => Some []
  | PyFloat x :: xs', m :: mean', s :: scale' =>
      match standardize xs' mean' scale' with
      | Some r => Some (((x - m) / s)%float :: r)
      | None => None
      end
  | _, _, _ => None
  end.

Definition standard_scaler (mean scale : list float) : Sklearn.Scaler :=
  {| Sklearn.transform := fun X =>
       match shape X with
       | [1; k] =>
           if (k =? List.length mean)%nat then
             match standardize (data X) mean scale with
             | Some r => Ret {| shape := [1; k]; data := r |}
             | None => Raise (ValueError "could not convert input to float")
             end
           else Raise (ValueError "X has a different number of features than StandardScaler is expecting")
       | _ => Raise (ValueError "Expected a 2D array with one row")
       end |}.

(** A classifier with one sigmoid-like output unit that answers [p] for
    every row of [n] columns. *)
Definition constant_model (n : nat) (p : float) : Keras.Model :=
  {| Keras.predict := fun Y =>
       match shape Y with
       | [r; k] =>
           if (k =? n)%nat then Ret {| shape := [r; 1]; data := repeat p r |}
           else Raise (ValueError "Input is incompatible with the layer: expected a different last axis")
       | _ => Raise (ValueError "Input is incompatible with the layer: expected ndim=2")
       end |}.

Definition scaler2 : Sklearn.Scaler := standard_scaler [1; 2]%float [2; 4]%float.

(** A scaler written by hand on NumPy arrays, [(X - mean) / scale], with no
    check of the column count, for two or more means: a row with as many
    columns as there are means is standardized column by column; a row of a
    single column is broadcast by NumPy against all the means and comes back
    with one column per mean; any other width does not broadcast and is a
    [ValueError]. *)
Definition unchecked_scaler (mean scale : list float) : Sklearn.Scaler :=
  {| Sklearn.transform := fun X =>
       match shape X, data X with
       | [1; 1], [PyFloat x] =>
           Ret {| shape := [1; List.length mean];
                  data := map (fun ms => ((x - fst ms) / snd ms)%float)
                            (combine mean scale) |}
       | _, _ => Sklearn.transform (standard_scaler mean scale) X
       end |}.

Definition model2 (p : float) : Keras.Model := constant_model 2 p.

Definition path_eqb (p q : path) : bool :=
  if list_eq_dec string_dec p q then true else false.

Definition script : path := ["srv"; "app"; "Monitor dan Logging"; "7.inference.py"].

(** Both artifacts are on disk and load. *)
Definition host_ok : host :=
  {| script_file := script;
     path_exists := fun _ => true;
     load_model := fun _ => Ret (model2 0.75);
     joblib_load := fun _ => Ret scaler2 |}.

(** The model file is there and loads; there is no scaler file. *)
Definition host_without_scaler : host :=
  {| script_file := script;
     path_exists := fun p =>
       path_eqb p ["srv"; "app"; "Membangun_model"; "artifacts"; "baseline_model.h5"];
     load_model := fun _ => Ret (model2 0.75);
     joblib_load := fun _ => Raise (OtherError "FileNotFoundError" "No such file or directory") |}.

(** Both files are there; the model file is corrupt, the scaler file is fine. *)
Definition host_corrupt_model : host :=
  {| script_file := script;
     path_exists := fun _ => true;
     load_model := fun _ => Raise (OtherError "OSError" "Unable to open file (file signature not found)");
     joblib_load := fun _ => Ret scaler2 |}.

(** Both files are there; the scaler file is corrupt, the model file is fine. *)
Definition host_corrupt_scaler : host :=
  {| script_file := script;
     path_exists := fun _ => true;
     load_model := fun _ => Ret (model2 0.75);
     joblib_load := fun _ => Raise (OtherError "UnpicklingError" "invalid load key") |}.

(** Both artifacts are on disk and load; the scaler is the hand-written one,
    with the same two means. *)
Definition host_unchecked_scaler : host :=
  {| script_file := script;
     path_exists := fun _ => true;
     load_model := fun _ => Ret (model2 0.75);
     joblib_load := fun _ => Ret (unchecked_scaler [1; 2]%float [2; 4]%float) |}.

Definition post (v : pyval) : request := {| get_json := Ret v |}.

Definition features (v : pyval) : pyval := PyDict [("features", v)].

End Demo.

(** * Exploratory analysis ([Eksperimen_SML_CalebAnthony/eksperimen_CalebAnthony.py])

    The class [ChurnAdvancedEDA]: what it decides itself (which dataset to
    read, which columns to plot, which steps to skip, what to log, where to
    save) is modelled as written; what pandas, seaborn and matplotlib do
    inside a call is not.  Every library call is recorded with the arguments
    the script chose and may raise, as the [host] says. *)

Module Eda.

(** A loaded table, as far as the script itself looks at it: the column
    labels, in order, and the number of rows. *)
Record DataFrame : Type := {
  columns : list string;
  nrows : nat
}.

Inductive level : Type := INFO | WARNING | ERROR | CRITICAL.

(** What the analysis does that can be seen from outside, in order. *)
Inductive event : Type :=
| ELog (lv : level) (msg : string)        (* logger.info / warning / error / critical *)
| EReadCsv (file : path)                  (* pd.read_csv *)
| ECall (fn : string) (args : list string) (* a pandas, seaborn or matplotlib call *)
| EBarh (colors : list string)            (* correlations.plot(kind='barh', color=colors) *)
| ESample (n : nat)                       (* self.df.sample(n=n, random_state=42) *)
| EOpen (file : path)                     (* open(file, 'w') *)
| EWrite (text : string)                  (* f.write of a text the script spells out *)
| EWriteOf (expr : string)                (* f.write of a text pandas renders *)
| ESavefig (file : path).                 (* plt.savefig *)

(** What the analysis finds around it.  [library] gives what a library call
    does after the events so far: return, or raise. *)
Record host : Type := {
  script_file : path;                              (* Path(__file__).resolve() *)
  path_exists : path -> bool;                      (* Path.exists *)
  read_csv : path -> outcome DataFrame;            (* pd.read_csv *)
  correlations : list float;                       (* corrwith(...).sort_values(...).values *)
  patches : list float;                            (* heights of ax.patches of plot 1 *)
  library : list event -> event -> outcome unit
}.

(** The instance: [self.df], and the events so far. *)
Record state : Type := {
  df : option DataFrame;
  log : list event
}.

(** How a method ends other than by returning: an [Exception], or the
    [SystemExit] of [sys.exit], which [except Exception] does not catch. *)
Inductive signal : Type :=
| Exc (e : exn)
| SystemExit (code : Z).

Inductive result (A : Type) : Type :=
| Done (a : A)
| Stop (s : signal).
Arguments Done {A} a.
Arguments Stop {A} s.

Definition E (A : Type) : Type := state -> result A * state.

Definition ret {A} (a : A) : E A := fun st => (Done a, st).

Definition stop {A} (s : signal) : E A := fun st => (Stop s, st).

Definition bind {A B} (c : E A) (k : A -> E B) : E B :=
  fun st =>
    match c st with
    | (Done a, st') => k a st'
    | (Stop s, st') => (Stop s, st')
    end.

(** [try: c  except Exception as e: h e] *)
Definition try_except {A} (c : E A) (h : exn -> E A) : E A :=
  fun st =>
    match c st with
    | (Stop (Exc e), st') => h e st'
    | r => r
    end.

Declare Scope eda_scope.
Delimit Scope eda_scope with eda.
Notation "x <- c ;; k" := (bind c (fun x => k))
  (at level 61, c at next level, right associativity) : eda_scope.
Notation "c ;; k" := (bind c (fun _ => k))
  (at level 61, right associativity) : eda_scope.
Local Open Scope eda_scope.

Definition emit (ev : event) : E unit :=
  fun st => (Done tt, {| df := df st; log := log st ++ [ev] |}).

Definition get_df : E (option DataFrame) := fun st => (Done (df st), st).

Definition set_df (d : option DataFrame) : E unit :=
  fun st => (Done tt, {| df := d; log := log st |}).

Definition logger (lv : level) (msg : string) : E unit := emit (ELog lv msg).

(** [sys.exit(code)] *)
Definition sys_exit {A} (code : Z) : E A := stop (SystemExit code).

Definition raise {A} (e : exn) : E A := stop (Exc e).

(** [for x in xs: body x] *)
Fixpoint for_each {A} (xs : list A) (body : A -> E unit) : E unit :=
  match xs with
  | [] => ret tt
  | x :: rest => body x ;; for_each rest body
  end.

(** [sub in s] on strings *)
Fixpoint str_contains (sub s : string) : bool :=
  String.prefix sub s ||
  match s with
  | EmptyString => false
  | String _ s' => str_contains sub s'
  end.

(** [col in self.df.columns] *)
Definition has_column (d : DataFrame) (col : string) : bool :=
  existsb (String.eqb col) (columns d).

(** [self.df[name] = ...]: a new label goes last, a known one stays where
    it is. *)
Definition set_column (d : DataFrame) (name : string) : DataFrame :=
  if has_column d name then d
  else {| columns := columns d ++ [name]; nrows := nrows d |}.

Definition str_nat (n : nat) : string := NilZero.string_of_uint (Nat.to_uint n).

(** [str(self.df.shape)] *)
Definition str_shape (d : DataFrame) : string :=
  "(" ++ str_nat (nrows d) ++ ", " ++ str_nat (List.length (columns d)) ++ ")".

Definition nl : string := String (Ascii.ascii_of_nat 10) EmptyString.

Section Analysis.

Variable h : host.

(** A library call: recorded, then what the host says it does. *)
Definition lib (ev : event) : E unit :=
  fun st =>
    match library h (log st) ev with
    | Ret _ => (Done tt, {| df := df st; log := log st ++ [ev] |})
    | Raise e => (Stop (Exc e), {| df := df st; log := log st ++ [ev] |})
    end.

(** [self.df.<attr>]: an [AttributeError] while no table is loaded. *)
Definition self_df (attr : string) : E DataFrame :=
  d <- get_df ;;
  match d with
  | Some frame => ret frame
  | None =>
      raise (OtherError "AttributeError"
               ("'NoneType' object has no attribute '" ++ attr ++ "'"))
  end.

(** ** [AnalysisConfig] (lines 32-42) *)

Definition BASE_DIR : path := parent (script_file h).

Definition INPUT_DATA_PATH : path :=
  joinpath (joinpath BASE_DIR "churn_preprocessing") "clean_data.csv".

Definition OUTPUT_DIR : path := joinpath BASE_DIR "analysis_results".

(** ** [__init__] (lines 50-60) *)

Definition init : E unit :=
  set_df None ;;
  lib (ECall "Path.mkdir" [str_path OUTPUT_DIR]) ;;
  lib (ECall "sns.set_theme" ["whitegrid"]) ;;
  logger INFO ("Advanced EDA initialized. Output path: " ++ str_path OUTPUT_DIR).

(** ** [load_data] (lines 62-75) *)

Definition load_data : E unit :=
  (if negb (path_exists h INPUT_DATA_PATH) then
     logger CRITICAL ("Dataset tidak ditemukan di " ++ str_path INPUT_DATA_PATH) ;;
     sys_exit 1
   else ret tt) ;;
  try_except
    (emit (EReadCsv INPUT_DATA_PATH) ;;
     match read_csv h INPUT_DATA_PATH with
     | Raise e => raise e
     | Ret frame =>
         set_df (Some frame) ;;
         (if has_column frame "default" then ret tt else raise (KeyError "default")) ;;
         lib (ECall "Series.map" ["default"]) ;;
         set_df (Some (set_column frame "Label")) ;;
         logger INFO ("Data dimuat: " ++ str_shape (set_column frame "Label"))
     end)
    (fun e =>
       logger ERROR ("Error loading data: " ++ str_exn e) ;;
       raise e).

(** ** [save_descriptive_stats] (lines 77-102) *)

Definition cat_cols : list string := ["SEX"; "EDUCATION"; "MARRIAGE"; "Label"; "default"].

Definition save_descriptive_stats : E unit :=
  lib (EOpen (joinpath OUTPUT_DIR "0_descriptive_stats.txt")) ;;
  lib (EWrite ("=== DATASET OVERVIEW (INFO) ===" ++ nl)) ;;
  _ <- self_df "info" ;;
  lib (EWriteOf "self.df.info()") ;;
  lib (EWrite (nl ++ nl ++ "=== MISSING VALUES (ISNA) ===" ++ nl)) ;;
  lib (EWriteOf "self.df.isna().sum().to_string()") ;;
  lib (EWrite (nl ++ nl ++ "=== NUMERICAL SUMMARY (DESCRIBE) ===" ++ nl)) ;;
  lib (EWriteOf "self.df.describe().to_string()") ;;
  lib (EWrite (nl ++ nl ++ "=== VALUE COUNTS (CATEGORICAL) ===" ++ nl)) ;;
  for_each cat_cols (fun col =>
    frame <- self_df "columns" ;;
    if has_column frame col then
      lib (EWrite (nl ++ "--- " ++ col ++ " ---" ++ nl)) ;;
      lib (EWriteOf ("self.df[" ++ col ++ "].value_counts().to_string()"))
    else ret tt) ;;
  lib (EWrite (nl ++ nl ++ "=== CORRELATION MATRIX (NUMERICAL) ===" ++ nl)) ;;
  lib (ECall "df.select_dtypes" ["number"]) ;;
  lib (EWriteOf "numeric_df.corr().to_string()") ;;
  logger INFO "Statistik deskriptif tersimpan.".

(** ** Plot 1, [plot_target_distribution] (lines 105-122) *)

(** [len(self.df)], a [TypeError] while no table is loaded. *)
Definition len_df : E nat :=
  d <- get_df ;;
  match d with
  | Some frame => ret (nrows frame)
  | None => raise (TypeError "object of type 'NoneType' has no len()")
  end.

(** The text of each label is worked out from the bar and the row count
    inside the recorded [annotate] step. *)
Definition plot_target_distribution : E unit :=
  lib (ECall "plt.figure" []) ;;
  lib (ECall "sns.countplot" ["Label"]) ;;
  lib (ECall "plt.title" ["Proporsi Nasabah Churn vs Non-Churn"]) ;;
  lib (ECall "plt.xlabel" [EmptyString]) ;;
  lib (ECall "plt.ylabel" ["Jumlah Nasabah"]) ;;
  _ <- len_df ;;
  for_each (patches h) (fun _ => lib (ECall "ax.annotate" [])) ;;
  lib (ESavefig (joinpath OUTPUT_DIR "1_target_distribution.png")) ;;
  lib (ECall "plt.close" []) ;;
  logger INFO "[Plot 1] Target distribution saved.".

(** ** Plot 2, [plot_feature_correlation_ranking] (lines 125-149) *)

(** Line 139: red for a positive coefficient, green otherwise. *)
Definition bar_colors (values : list float) : list string :=
  map (fun x => if (0 <? x)%float then "#e74c3c" else "#2ecc71") values.

Definition plot_feature_correlation_ranking : E unit :=
  logger INFO "Menghitung korelasi fitur..." ;;
  _ <- self_df "select_dtypes" ;;
  lib (ECall "df.select_dtypes.drop" ["number"; "default"]) ;;
  lib (ECall "numeric_df.corrwith.sort_values" ["default"]) ;;
  lib (ECall "plt.figure" []) ;;
  lib (EBarh (bar_colors (correlations h))) ;;
  lib (ECall "plt.title" ["Faktor Pendorong Churn (Correlation Ranking)"]) ;;
  lib (ECall "plt.xlabel" ["Koefisien Korelasi (Pearson)"]) ;;
  lib (ECall "plt.axvline" []) ;;
  lib (ECall "plt.tight_layout" []) ;;
  lib (ESavefig (joinpath OUTPUT_DIR "2_feature_importance_corr.png")) ;;
  lib (ECall "plt.close" []) ;;
  logger INFO "[Plot 2] Feature correlation ranking saved.".

(** ** Plot 3, [plot_payment_trend] (lines 152-184) *)

Definition pay_cols : list string := ["PAY_6"; "PAY_5"; "PAY_4"; "PAY_3"; "PAY_2"; "PAY_1"].

Definition plot_payment_trend : E unit :=
  frame <- self_df "columns" ;;
  if negb (forallb (has_column frame) pay_cols) then
    logger WARNING "Kolom PAY_1 - PAY_6 tidak lengkap. Melewati analisis tren."
  else
    lib (ECall "df.groupby.mean.T" ("Label" :: pay_cols)) ;;
    lib (ECall "plt.figure" []) ;;
    lib (ECall "plt.plot" ["Non-Churn"]) ;;
    lib (ECall "plt.plot" ["Churn"]) ;;
    lib (ECall "plt.title" ["Tren Keterlambatan Pembayaran (6 Bulan Terakhir)"]) ;;
    lib (ECall "plt.ylabel" []) ;;
    lib (ECall "plt.xlabel" ["Bulan (PAY_6 = April, PAY_1 = September)"]) ;;
    lib (ECall "plt.legend" []) ;;
    lib (ECall "plt.grid" []) ;;
    lib (ESavefig (joinpath OUTPUT_DIR "3_payment_trend_analysis.png")) ;;
    lib (ECall "plt.close" []) ;;
    logger INFO "[Plot 3] Payment trend analysis saved.".

(** ** Plot 4, [plot_limit_balance_violin] (lines 187-206) *)

Definition plot_limit_balance_violin : E unit :=
  lib (ECall "plt.figure" []) ;;
  lib (ECall "sns.violinplot" ["Label"; "LIMIT_BAL"]) ;;
  lib (ECall "plt.title" ["Distribusi Limit Kartu Kredit (Violin Plot)"]) ;;
  lib (ECall "plt.ylabel" ["Limit Balance (NT Dollar)"]) ;;
  lib (ECall "plt.xlabel" ["Status"]) ;;
  lib (ECall "plt.gca.get_yticks" []) ;;
  lib (ECall "plt.gca.set_yticklabels" []) ;;
  lib (ESavefig (joinpath OUTPUT_DIR "4_limit_balance_violin.png")) ;;
  lib (ECall "plt.close" []) ;;
  logger INFO "[Plot 4] Limit balance violin plot saved.".

(** ** Plot 5, [plot_age_limit_interaction] (lines 209-226) *)

Definition plot_age_limit_interaction : E unit :=
  frame <- self_df "sample" ;;
  lib (ESample (Nat.min 2000 (nrows frame))) ;;
  lib (ECall "plt.figure" []) ;;
  lib (ECall "sns.scatterplot" ["AGE"; "LIMIT_BAL"; "Label"]) ;;
  lib (ECall "plt.title" ["Segmentasi Demografis: Umur vs Limit (Sample 2000)"]) ;;
  lib (ECall "plt.xlabel" ["Umur (Tahun)"]) ;;
  lib (ECall "plt.ylabel" ["Limit Balance"]) ;;
  lib (ESavefig (joinpath OUTPUT_DIR "5_demographic_scatter.png")) ;;
  lib (ECall "plt.close" []) ;;
  logger INFO "[Plot 5] Demographic scatter plot saved.".

(** ** Plot 6, [plot_numerical_distributions] (lines 229-245) *)

Definition plot_numerical_distributions : E unit :=
  lib (ECall "plt.figure" []) ;;
  for_each ["AGE"; "LIMIT_BAL"] (fun col =>
    lib (ECall "plt.subplot" [col]) ;;
    lib (ECall "sns.histplot" [col; "Label"]) ;;
    lib (ECall "plt.title" [("Distribusi " ++ col)%string])) ;;
  lib (ECall "plt.tight_layout" []) ;;
  lib (ESavefig (joinpath OUTPUT_DIR "6_numerical_distributions.png")) ;;
  lib (ECall "plt.close" []) ;;
  logger INFO "[Plot 6] Numerical distributions saved.".

(** ** Plot 7, [plot_categorical_distributions] (lines 248-269) *)

Definition categorical_cols : list string := ["SEX"; "EDUCATION"; "MARRIAGE"].

Definition plot_categorical_distributions : E unit :=
  frame <- self_df "columns" ;;
  if negb (forallb (has_column frame) categorical_cols) then
    logger WARNING "Kolom kategorikal tidak lengkap. Melewati analisis kategorikal."
  else
    lib (ECall "plt.figure" []) ;;
    for_each categorical_cols (fun col =>
      lib (ECall "plt.subplot" [col]) ;;
      lib (ECall "sns.countplot" [col; "Label"]) ;;
      lib (ECall "plt.title" [("Distribusi " ++ col ++ " per Status Churn")%string]) ;;
      lib (ECall "plt.xlabel" [col]) ;;
      lib (ECall "plt.ylabel" ["Count"]) ;;
      lib (ECall "plt.legend" ["Status"])) ;;
    lib (ECall "plt.tight_layout" []) ;;
    lib (ESavefig (joinpath OUTPUT_DIR "7_categorical_distributions.png")) ;;
    lib (ECall "plt.close" []) ;;
    logger INFO "[Plot 7] Categorical distributions saved.".

(** ** Plot 8, [plot_correlation_heatmap] (lines 272-285) *)

Definition plot_correlation_heatmap : E unit :=
  _ <- self_df "select_dtypes" ;;
  lib (ECall "df.select_dtypes" ["number"]) ;;
  lib (ECall "plt.figure" []) ;;
  lib (ECall "sns.heatmap" ["numeric_df.corr()"]) ;;
  lib (ECall "plt.title" ["Correlation Matrix Heatmap"]) ;;
  lib (ECall "plt.tight_layout" []) ;;
  lib (ESavefig (joinpath OUTPUT_DIR "8_correlation_heatmap.png")) ;;
  lib (ECall "plt.close" []) ;;
  logger INFO "[Plot 8] Correlation heatmap saved.".

(** ** Plot 9, [plot_outlier_analysis] (lines 288-313) *)

(** [[c for c in self.df.columns if sub in c]] *)
Definition columns_containing (sub : string) (frame : DataFrame) : list string :=
  filter (str_contains sub) (columns frame).

(** [if cols:] on a list *)
Definition nonempty {A} (l : list A) : bool :=
  match l with
  | [] => false
  | _ :: _ => true
  end.

Definition plot_outlier_analysis : E unit :=
  frame <- self_df "columns" ;;
  let bill_cols := columns_containing "BILL_AMT" frame in
  let pay_amt_cols := columns_containing "PAY_AMT" frame in
  (if nonempty bill_cols then
     lib (ECall "plt.figure" []) ;;
     lib (ECall "sns.boxplot" bill_cols) ;;
     lib (ECall "plt.title" ["Distribusi Outlier: Bill Amount"]) ;;
     lib (ECall "plt.tight_layout" []) ;;
     lib (ESavefig (joinpath OUTPUT_DIR "9_outlier_bill.png")) ;;
     lib (ECall "plt.close" [])
   else ret tt) ;;
  (if nonempty pay_amt_cols then
     lib (ECall "plt.figure" []) ;;
     lib (ECall "sns.boxplot" pay_amt_cols) ;;
     lib (ECall "plt.title" ["Distribusi Outlier: Payment Amount"]) ;;
     lib (ECall "plt.tight_layout" []) ;;
     lib (ESavefig (joinpath OUTPUT_DIR "9_outlier_pay.png")) ;;
     lib (ECall "plt.close" [])
   else ret tt) ;;
  logger INFO "[Plot 9] Outlier analysis saved.".

(** ** [run] (lines 316-341) and the script's entry point (lines 343-345) *)

Definition run : E unit :=
  logger INFO "=== STARTING ADVANCED EDA ===" ;;
  load_data ;;
  save_descriptive_stats ;;
  plot_target_distribution ;;
  plot_feature_correlation_ranking ;;
  plot_payment_trend ;;
  plot_limit_balance_violin ;;
  plot_age_limit_interaction ;;
  plot_numerical_distributions ;;
  plot_categorical_distributions ;;
  plot_correlation_heatmap ;;
  plot_outlier_analysis ;;
  logger INFO "=== EDA COMPLETED ===" ;;
  logger INFO ("Semua plot telah disimpan di folder: " ++ str_path OUTPUT_DIR).

Definition main : E unit := init ;; run.

End Analysis.

(** The state a fresh process starts from. *)
Definition fresh : state := {| df := None; log := [] |}.

(** The files handed to [plt.savefig], in order. *)
Fixpoint saved_figures (l : list event) : list path :=
  match l with
  | [] => []
  | ESavefig f :: rest => f :: saved_figures rest
  | _ :: rest => saved_figures rest
  end.

(** Every library call returns: whatever happened before, the host answers
    a call by returning. *)
Definition library_returns (h : host) : Prop :=
  library h = fun _ _ => Ret tt.

(** From [st], the method [c] returns, leaves [self.df] as it is and hands
    exactly the files [figs] to [plt.savefig], in this order. *)
Definition completes (c : E unit) (st : state) (figs : list path) : Prop :=
  exists evs,
    c st = (Done tt, {| df := df st; log := log st ++ evs |}) /\
    saved_figures evs = figs.

(** The texts the script spells out and writes to a file, in order. *)
Fixpoint written_texts (l : list event) : list string :=
  match l with
  | [] => []
  | EWrite t :: rest => t :: written_texts rest
  | _ :: rest => written_texts rest
  end.

(** [r] is [l] with the elements that do not satisfy [keep] struck out, and
    nothing else changed: every element that satisfies [keep] stays, as often
    as it occurs and in the order of [l]. *)
Inductive kept_in_order {A} (keep : A -> Prop) : list A -> list A -> Prop :=
| kept_nil : kept_in_order keep [] []
| kept_yes (x : A) (l r : list A) :
    keep x -> kept_in_order keep l r -> kept_in_order keep (x :: l) (x :: r)
| kept_no (x : A) (l r : list A) :
    ~ keep x -> kept_in_order keep l r -> kept_in_order keep (x :: l) r.

(** The label [c] contains [sub]: it is some text, then [sub], then some
    text. *)
Definition contains (sub c : string) : Prop :=
  exists a b, c = (a ++ sub ++ b)%string.

End Eda.

(** A host for running the analysis: the dataset is there, it has three
    rows and the columns [cols], and every library call returns. *)
Definition eda_demo_host (cols : list string) : Eda.host :=
  {| Eda.script_file := ["srv"; "app"; "Eksperimen"; "eksperimen.py"];
     Eda.path_exists := fun _ => true;
     Eda.read_csv := fun _ => Ret {| Eda.columns := cols; Eda.nrows := 3 |};
     Eda.correlations := [(-0.5)%float; 0.25%float];
     Eda.patches := [2%float; 1%float];
     Eda.library := fun _ _ => Ret tt |}.

(** The dataset file is not there. *)
Definition eda_host_without_dataset : Eda.host :=
  {| Eda.script_file := ["srv"; "app"; "Eksperimen"; "eksperimen.py"];
     Eda.path_exists := fun _ => false;
     Eda.read_csv := fun _ => Raise (OtherError "FileNotFoundError" "No such file or directory");
     Eda.correlations := [];
     Eda.patches := [];
     Eda.library := fun _ _ => Ret tt |}.

(** The header line written before the value counts of a column. *)
Definition section_header (col : string) : string :=
  (Eda.nl ++ "--- " ++ col ++ " ---" ++ Eda.nl)%string.

(** Plot 1 after its first six lines: the labels, then the file. *)
Definition annotate_and_save (h : Eda.host) : Eda.E unit :=
  Eda.bind (Eda.for_each (Eda.patches h) (fun _ => Eda.lib h (Eda.ECall "ax.annotate" [])))
    (fun _ =>
       Eda.bind (Eda.lib h (Eda.ESavefig
                              (joinpath (Eda.OUTPUT_DIR h) "1_target_distribution.png")))
         (fun _ => Eda.bind (Eda.lib h (Eda.ECall "plt.close" []))
                     (fun _ => Eda.logger Eda.INFO "[Plot 1] Target distribution saved."))).

(** The dataset file is there and cannot be parsed. *)
Definition eda_host_unreadable : Eda.host :=
  {| Eda.script_file := ["srv"; "app"; "Eksperimen"; "eksperimen.py"];
     Eda.path_exists := fun _ => true;
     Eda.read_csv := fun _ =>
       Raise (OtherError "EmptyDataError" "No columns to parse from file");
     Eda.correlations := [];
     Eda.patches := [];
     Eda.library := fun _ _ => Ret tt |}.

(** The loop of lines 93-96 of [save_descriptive_stats]. *)
Definition write_value_counts (h : Eda.host) : Eda.E unit :=
  Eda.for_each Eda.cat_cols
    (fun col =>
       Eda.bind (Eda.self_df "columns")
         (fun frame =>
            if Eda.has_column frame col
            then Eda.bind (Eda.lib h (Eda.EWrite (section_header col)))
                   (fun _ => Eda.lib h (Eda.EWriteOf
                               ("self.df[" ++ col ++ "].value_counts().to_string()")))
            else Eda.ret tt)).

(** Lines 98-102 of [save_descriptive_stats]. *)
Definition write_correlations (h : Eda.host) : Eda.E unit :=
  Eda.bind (Eda.lib h (Eda.EWrite
              (Eda.nl ++ Eda.nl ++ "=== CORRELATION MATRIX (NUMERICAL) ===" ++ Eda.nl)))
    (fun _ =>
       Eda.bind (Eda.lib h (Eda.ECall "df.select_dtypes" ["number"]))
         (fun _ =>
            Eda.bind (Eda.lib h (Eda.EWriteOf "numeric_df.corr().to_string()"))
              (fun _ => Eda.logger Eda.INFO "Statistik deskriptif tersimpan."))).

(** * Properties *)

(** ** Running the monad *)

Lemma bind_ret {A B} (a : A) (k : A -> M B) (w : world) :
  bind (ret a) k w = k a w.
Proof. reflexivity. Qed.

Lemma bind_lift_Ret {A B} (a : A) (k : A -> M B) (w : world) :
  bind (lift (Ret a)) k w = k a w.
Proof. reflexivity. Qed.

Lemma bind_lift_Raise {A B} (e : exn) (k : A -> M B) (w : world) :
  bind (lift (@Raise A e)) k w = (Raise e, w).
Proof. reflexivity. Qed.

Lemma bind_call_Ret {A B} (ev : event) (a : A) (k : A -> M B) (w : world) :
  bind (call ev (Ret a)) k w = k a (snd (emit ev w)).
Proof. reflexivity. Qed.

Lemma bind_call_Raise {A B} (ev : event) (e : exn) (k : A -> M B) (w : world) :
  bind (call ev (@Raise A e)) k w = (Raise e, snd (emit ev w)).
Proof. reflexivity. Qed.

Example str_path_MODEL_PATH :
  str_path (MODEL_PATH Demo.host_ok) = "/srv/app/Membangun_model/artifacts/baseline_model.h5".
Proof. reflexivity. Qed.

Example startup_ok_trace :
  trace (startup Demo.host_ok) =
  [ELoadModel (MODEL_PATH Demo.host_ok); EPrint "Model loaded successfully.";
   EJoblibLoad (SCALER_PATH Demo.host_ok); EPrint "Scaler loaded successfully."].
Proof. reflexivity. Qed.

Example startup_without_scaler_trace :
  trace (startup Demo.host_without_scaler) =
  [ELoadModel (MODEL_PATH Demo.host_ok); EPrint "Model loaded successfully.";
   EPrint "Warning: Scaler not found at /srv/app/Membangun_model/artifacts/scaler.pkl"].
Proof. reflexivity. Qed.

Example predict_ok_run :
  fst (predict 32 (Demo.post (Demo.features (PyList [PyFloat 3; PyFloat 6])))
         (startup Demo.host_ok)) =
  Ret {| status := 200;
         body := PyDict [("prediction_class", PyInt 1); ("prediction_prob", PyFloat 0.75)] |}.
Proof. reflexivity. Qed.

(** ** The loader *)

(** What the loader does, spelled out by the four things it finds. *)
Lemma load_artifacts_run (h : host) :
  load_artifacts h init_world =
  (Ret tt,
   if path_exists h (MODEL_PATH h) then
     match load_model h (MODEL_PATH h) with
     | Raise e =>
         {| model := None; scaler := None;
            trace := [ELoadModel (MODEL_PATH h);
                      EPrint ("Error loading artifacts: " ++ str_exn e)] |}
     | Ret km =>
         if path_exists h (SCALER_PATH h) then
           match joblib_load h (SCALER_PATH h) with
           | Raise e =>
               {| model := Some km; scaler := None;
                  trace := [ELoadModel (MODEL_PATH h);
                            EPrint "Model loaded successfully.";
                            EJoblibLoad (SCALER_PATH h);
                            EPrint ("Error loading artifacts: " ++ str_exn e)] |}
           | Ret sc =>
               {| model := Some km; scaler := Some sc;
                  trace := [ELoadModel (MODEL_PATH h);
                            EPrint "Model loaded successfully.";
                            EJoblibLoad (SCALER_PATH h);
                            EPrint "Scaler loaded successfully."] |}
           end
         else
           {| model := Some km; scaler := None;
              trace := [ELoadModel (MODEL_PATH h);
                        EPrint "Model loaded successfully.";
                        EPrint ("Warning: Scaler not found at " ++ str_path (SCALER_PATH h))] |}
     end
   else if path_exists h (SCALER_PATH h) then
     match joblib_load h (SCALER_PATH h) with
     | Raise e =>
         {| model := None; scaler := None;
            trace := [EPrint ("Warning: Model not found at " ++ str_path (MODEL_PATH h));
                      EJoblibLoad (SCALER_PATH h);
                      EPrint ("Error loading artifacts: " ++ str_exn e)] |}
     | Ret sc =>
         {| model := None; scaler := Some sc;
            trace := [EPrint ("Warning: Model not found at " ++ str_path (MODEL_PATH h));
                      EJoblibLoad (SCALER_PATH h);
                      EPrint "Scaler loaded successfully."] |}
     end
   else
     {| model := None; scaler := None;
        trace := [EPrint ("Warning: Model not found at " ++ str_path (MODEL_PATH h));
                  EPrint ("Warning: Scaler not found at " ++ str_path (SCALER_PATH h))] |}).
Proof.
  unfold load_artifacts, try_except, bind, call, print, emit, set_model, set_scaler,
    lift, init_world.
  cbn [model scaler trace app].
  destruct (path_exists h (MODEL_PATH h)).
  - cbn [model scaler trace app].
    destruct (load_model h (MODEL_PATH h)) as [km | e]; cbn [model scaler trace app].
    + destruct (path_exists h (SCALER_PATH h)); cbn [model scaler trace app].
      * destruct (joblib_load h (SCALER_PATH h)); reflexivity.
      * reflexivity.
    + reflexivity.
  - cbn [model scaler trace app].
    destruct (path_exists h (SCALER_PATH h)); cbn [model scaler trace app].
    + destruct (joblib_load h (SCALER_PATH h)); reflexivity.
    + reflexivity.
Qed.

(** C1 (amended): [/health] answers 200 with status [healthy] and
    [model_loaded] equal to whether the classifier is bound, that is, whether
    its file existed and loaded; the scaler plays no part, and the world is
    left as it was. *)
Theorem health_reports_classifier_only (h : host) :
  health (startup h) =
  (Ret {| status := 200;
          body := PyDict [("status", PyStr "healthy");
                          ("model_loaded",
                           PyBool (if path_exists h (MODEL_PATH h)
                                   then match load_model h (MODEL_PATH h) with
                                        | Ret _ => true
                                        | Raise _ => false
                                        end
                                   else false))] |},
   startup h).
Proof.
  unfold startup. rewrite load_artifacts_run. cbn [snd].
  unfold health, bind, get_model, ret, jsonify.
  destruct (path_exists h (MODEL_PATH h)).
  - destruct (load_model h (MODEL_PATH h)).
    + destruct (path_exists h (SCALER_PATH h)).
      * destruct (joblib_load h (SCALER_PATH h)); reflexivity.
      * reflexivity.
    + reflexivity.
  - destruct (path_exists h (SCALER_PATH h)).
    + destruct (joblib_load h (SCALER_PATH h)); reflexivity.
    + reflexivity.
Qed.

(** C1 as stated fails: with the model file in place and no scaler file,
    the scaler stays unset, [/predict] is unavailable, and [/health] still
    says [model_loaded = true]. *)
Lemma health_true_without_scaler :
  let w := startup Demo.host_without_scaler in
  scaler w = None /\
  fst (health w) =
  Ret {| status := 200;
         body := PyDict [("status", PyStr "healthy"); ("model_loaded", PyBool true)] |} /\
  fst (predict 32 (Demo.post (Demo.features (PyList [PyFloat 3; PyFloat 6]))) w) =
  Ret {| status := 500;
         body := PyDict [("error", PyStr "Model or Scaler not initialized")] |}.
Proof. repeat split. Qed.

(** C2 (amended): a load that raises never escapes the loader; the error is
    printed, the scaler ends up unset whichever load raised, and the
    classifier is bound exactly when its own load had already succeeded.  When
    it is the classifier's load that raises, the scaler's load is not
    attempted. *)
Theorem load_error_stops_loading (h : host) (e : exn) :
  (path_exists h (MODEL_PATH h) = true /\ load_model h (MODEL_PATH h) = Raise e) \/
  ((path_exists h (MODEL_PATH h) = false \/ exists km, load_model h (MODEL_PATH h) = Ret km) /\
   path_exists h (SCALER_PATH h) = true /\ joblib_load h (SCALER_PATH h) = Raise e) ->
  fst (load_artifacts h init_world) = Ret tt /\
  last (trace (startup h)) EGetJson = EPrint ("Error loading artifacts: " ++ str_exn e) /\
  scaler (startup h) = None /\
  model (startup h) =
    (if path_exists h (MODEL_PATH h)
     then match load_model h (MODEL_PATH h) with
          | Ret km => Some km
          | Raise _ => None
          end
     else None) /\
  (load_model h (MODEL_PATH h) = Raise e -> path_exists h (MODEL_PATH h) = true ->
   trace (startup h) =
   [ELoadModel (MODEL_PATH h); EPrint ("Error loading artifacts: " ++ str_exn e)]).
Proof.
  intros H. unfold startup. rewrite load_artifacts_run. cbn [fst snd].
  split; [reflexivity |].
  destruct H as [[Hm He] | [Hm [Hs He]]].
  - rewrite Hm, He. cbn. repeat split; reflexivity.
  - rewrite Hs, He. destruct Hm as [Hm | [km Hm]].
    + rewrite Hm. cbn. repeat split; try reflexivity. intros _ Habs; discriminate.
    + rewrite Hm. destruct (path_exists h (MODEL_PATH h)); cbn;
        repeat split; try reflexivity; intros Habs; discriminate.
Qed.

(** C2 as stated fails: both files exist and the scaler file is sound, but
    the classifier's load raises, and the scaler is never loaded. *)
Lemma corrupt_model_skips_scaler :
  let h := Demo.host_corrupt_model in
  path_exists h (SCALER_PATH h) = true /\
  joblib_load h (SCALER_PATH h) = Ret Demo.scaler2 /\
  scaler (startup h) = None /\
  trace (startup h) =
  [ELoadModel (MODEL_PATH h);
   EPrint "Error loading artifacts: Unable to open file (file signature not found)"].
Proof. repeat split. Qed.

Lemma load_error_stops_loading_witness :
  (let h := Demo.host_corrupt_model in
   scaler (startup h) = None /\ model (startup h) = None) /\
  (let h := Demo.host_corrupt_scaler in
   scaler (startup h) = None /\ model (startup h) = Some (Demo.model2 0.75)).
Proof.
  split.
  - destruct (load_error_stops_loading Demo.host_corrupt_model
                (OtherError "OSError" "Unable to open file (file signature not found)"))
      as (_ & _ & Hs & Hm & _).
    + left. split; reflexivity.
    + split; [exact Hs | exact Hm].
  - destruct (load_error_stops_loading Demo.host_corrupt_scaler
                (OtherError "UnpicklingError" "invalid load key"))
      as (_ & _ & Hs & Hm & _).
    + right. split; [right; eexists; reflexivity | split; reflexivity].
    + split; [exact Hs | exact Hm].
Defined.

(** ** The [/predict] handler *)

(** The [try] block, stage by stage: where it stops and what was called. *)
Lemma predict_body_run (maxdims : nat) (km : Keras.Model) (sc : Sklearn.Scaler)
  (req : request) (w : world) :
  predict_body maxdims km sc req w =
  match get_json req with
  | Raise e => (Raise e, snd (emit EGetJson w))
  | Ret data =>
      match input_matrix maxdims data with
      | Raise e => (Raise e, snd (emit EGetJson w))
      | Ret X =>
          match Sklearn.transform sc X with
          | Raise e => (Raise e, snd (emit (ETransform X) (snd (emit EGetJson w))))
          | Ret Y =>
              let w3 := snd (emit (EPredict Y)
                               (snd (emit (ETransform X) (snd (emit EGetJson w))))) in
              match Keras.predict km Y with
              | Raise e => (Raise e, w3)
              | Ret P =>
                  (let? c := threshold_class P in success_response c P, w3)
              end
          end
      end
  end.
Proof.
  unfold predict_body.
  destruct (get_json req) as [data | e]; [| reflexivity].
  rewrite bind_call_Ret.
  destruct (input_matrix maxdims data) as [X | e]; [| reflexivity].
  rewrite bind_lift_Ret.
  destruct (Sklearn.transform sc X) as [Y | e]; [| reflexivity].
  rewrite bind_call_Ret.
  destruct (Keras.predict km Y) as [P | e]; [| reflexivity].
  rewrite bind_call_Ret.
  cbv zeta.
  destruct (threshold_class P) as [c | e]; reflexivity.
Qed.

(** With both artifacts bound, the handler is the [try] block under its
    [except] clause. *)
Lemma predict_loaded (maxdims : nat) (w : world) (km : Keras.Model)
  (sc : Sklearn.Scaler) (req : request) :
  model w = Some km -> scaler w = Some sc ->
  predict maxdims req w =
  try_except (predict_body maxdims km sc req) (fun e => ret (error_response e)) w.
Proof.
  intros Hm Hs. unfold predict, bind, get_model, get_scaler.
  rewrite Hm, Hs. reflexivity.
Qed.

(** If the [try] block raises, the answer is the 400 error response. *)
Lemma predict_body_raises (maxdims : nat) (w w' : world) (km : Keras.Model)
  (sc : Sklearn.Scaler) (req : request) (e : exn) :
  model w = Some km -> scaler w = Some sc ->
  predict_body maxdims km sc req w = (Raise e, w') ->
  predict maxdims req w = (Ret (error_response e), w').
Proof.
  intros Hm Hs Hb. rewrite (predict_loaded _ _ _ _ _ Hm Hs).
  unfold try_except. rewrite Hb. reflexivity.
Qed.

(** C4: when the classifier or the scaler is unset, [/predict] answers 500
    with the message [Model or Scaler not initialized], whatever the request
    is, and the world is as before: no parsing, scaling or prediction call
    was made. *)
Theorem predict_unavailable (maxdims : nat) (w : world) (req : request) :
  model w = None \/ scaler w = None ->
  predict maxdims req w =
  (Ret {| status := 500;
          body := PyDict [("error", PyStr "Model or Scaler not initialized")] |},
   w).
Proof.
  intros H. unfold predict, bind, get_model, get_scaler.
  destruct H as [H | H]; rewrite H.
  - reflexivity.
  - destruct (model w); reflexivity.
Qed.

Lemma predict_unavailable_witness :
  let w := startup Demo.host_without_scaler in
  predict 32 (Demo.post (PyStr "anything")) w =
  (Ret {| status := 500;
          body := PyDict [("error", PyStr "Model or Scaler not initialized")] |},
   w).
Proof.
  apply (predict_unavailable 32 (startup Demo.host_without_scaler)).
  right. reflexivity.
Defined.

(** An exception raised at a stage of the [try] block makes the block raise
    it, with [model] and [scaler] untouched. *)
Lemma predict_body_stage (maxdims : nat) (w : world) (km : Keras.Model)
  (sc : Sklearn.Scaler) (req : request) (e : exn) :
  model w = Some km -> scaler w = Some sc ->
  raises_in_try maxdims km sc req e ->
  exists w', predict_body maxdims km sc req w = (Raise e, w') /\
             model w' = Some km /\ scaler w' = Some sc.
Proof.
  intros Hm Hs Hr. rewrite predict_body_run.
  destruct Hr as [Hj | data Hj Hi | data X Hj Hi Ht | data X Y Hj Hi Ht Hp
                 | data X Y P Hj Hi Ht Hp Hc | data X Y P c Hj Hi Ht Hp Hc Ha].
  - rewrite Hj. eexists; split; [reflexivity | split; assumption].
  - rewrite Hj, Hi. eexists; split; [reflexivity | split; assumption].
  - rewrite Hj, Hi, Ht. eexists; split; [reflexivity | split; assumption].
  - rewrite Hj, Hi, Ht, Hp. eexists; split; [reflexivity | split; assumption].
  - rewrite Hj, Hi, Ht, Hp, Hc. eexists; split; [reflexivity | split; assumption].
  - rewrite Hj, Hi, Ht, Hp, Hc. cbn [obind]. rewrite Ha.
    eexists; split; [reflexivity | split; assumption].
Qed.

(** Conversely, whatever the [try] block raises was raised at one of the
    stages: the list of stages is complete. *)
Lemma predict_body_raise_has_stage (maxdims : nat) (w w' : world)
  (km : Keras.Model) (sc : Sklearn.Scaler) (req : request) (e : exn) :
  predict_body maxdims km sc req w = (Raise e, w') ->
  raises_in_try maxdims km sc req e.
Proof.
  rewrite predict_body_run.
  destruct (get_json req) as [data | e0] eqn:Hj.
  2: { intros [= <- _]. apply raises_parsing. exact Hj. }
  destruct (input_matrix maxdims data) as [X | e0] eqn:Hi.
  2: { intros [= <- _]. apply (raises_reshaping _ _ _ _ _ data Hj Hi). }
  destruct (Sklearn.transform sc X) as [Y | e0] eqn:Ht.
  2: { intros [= <- _]. apply (raises_transforming _ _ _ _ _ data X Hj Hi Ht). }
  cbv zeta.
  destruct (Keras.predict km Y) as [P | e0] eqn:Hp.
  2: { intros [= <- _]. apply (raises_predicting _ _ _ _ _ data X Y Hj Hi Ht Hp). }
  destruct (threshold_class P) as [c | e0] eqn:Hc; cbn [obind].
  2: { intros [= <- _]. apply (raises_thresholding _ _ _ _ _ data X Y P Hj Hi Ht Hp Hc). }
  destruct (success_response c P) as [r | e0] eqn:Ha; [discriminate |].
  intros [= <- _]. apply (raises_answering _ _ _ _ _ data X Y P c Hj Hi Ht Hp Hc Ha).
Qed.

Lemma stage_exception_answered (maxdims : nat) (w : world)
  (km : Keras.Model) (sc : Sklearn.Scaler) (req : request) (e : exn) :
  model w = Some km -> scaler w = Some sc ->
  raises_in_try maxdims km sc req e ->
  exists w',
    predict maxdims req w =
    (Ret {| status := 400; body := PyDict [("error", PyStr (str_exn e))] |}, w').
Proof.
  intros Hm Hs Hr.
  destruct (predict_body_stage maxdims w km sc req e Hm Hs Hr) as (w' & Hb & _).
  exists w'. apply (predict_body_raises _ _ _ _ _ _ _ Hm Hs Hb).
Qed.

(** C6: with both artifacts bound, an exception raised at any stage of the
    [try] block (parsing, building the matrix, scaling, predicting,
    thresholding, answering) is answered with status 400 and the exception's
    [str] under [error]; the handler itself returns, and leaves [model] and
    [scaler] bound as they were. *)
Theorem predict_catches_every_exception (maxdims : nat) (w : world)
  (km : Keras.Model) (sc : Sklearn.Scaler) (req : request) (e : exn) :
  model w = Some km -> scaler w = Some sc ->
  raises_in_try maxdims km sc req e ->
  exists w',
    predict maxdims req w =
    (Ret {| status := 400; body := PyDict [("error", PyStr (str_exn e))] |}, w') /\
    model w' = Some km /\ scaler w' = Some sc.
Proof.
  intros Hm Hs Hr.
  destruct (predict_body_stage maxdims w km sc req e Hm Hs Hr) as (w' & Hb & Hm' & Hs').
  exists w'. split; [| split; assumption].
  apply (predict_body_raises _ _ _ _ _ _ _ Hm Hs Hb).
Qed.

(** The handler never raises: every request gets a response. *)
Lemma predict_total (maxdims : nat) (w : world) (req : request) :
  exists r w', predict maxdims req w = (Ret r, w').
Proof.
  unfold predict, bind, get_model, get_scaler.
  destruct (model w) as [km |]; [| eexists; eexists; reflexivity].
  destruct (scaler w) as [sc |]; [| eexists; eexists; reflexivity].
  unfold try_except.
  destruct (predict_body maxdims km sc req w) as [[r | e] w'];
    eexists; eexists; reflexivity.
Qed.

(** C9: with both artifacts bound, a body that parses to an object without
    the key [features] is answered with status 400 and the [str] of the
    [KeyError], which is the quoted key; only the body was read. *)
Theorem predict_missing_features_key (maxdims : nat) (w : world)
  (km : Keras.Model) (sc : Sklearn.Scaler) (req : request)
  (d : list (string * pyval)) :
  model w = Some km -> scaler w = Some sc ->
  get_json req = Ret (PyDict d) ->
  dict_get d "features" = None ->
  predict maxdims req w =
  (Ret {| status := 400; body := PyDict [("error", PyStr "'features'")] |},
   {| model := model w; scaler := scaler w; trace := trace w ++ [EGetJson] |}).
Proof.
  intros Hm Hs Hj Hd.
  apply (predict_body_raises _ _ _ _ _ _ (KeyError "features") Hm Hs).
  rewrite predict_body_run, Hj.
  unfold input_matrix, py_getitem. rewrite Hd. reflexivity.
Qed.

Lemma predict_missing_features_key_witness :
  fst (predict 32 (Demo.post (PyDict [("feature", PyList [PyFloat 3; PyFloat 6])]))
         (startup Demo.host_ok)) =
  Ret {| status := 400; body := PyDict [("error", PyStr "'features'")] |}.
Proof.
  rewrite (predict_missing_features_key 32 (startup Demo.host_ok)
             (Demo.model2 0.75) Demo.scaler2 _
             [("feature", PyList [PyFloat 3; PyFloat 6])]);
    reflexivity.
Defined.

Lemma predict_catches_every_exception_witness :
  exists w',
    predict 32 (Demo.post (Demo.features (PyList [PyFloat 3])))
      (startup Demo.host_ok) =
    (Ret {| status := 400;
            body := PyDict [("error",
                            PyStr "X has a different number of features than StandardScaler is expecting")] |},
     w') /\
    model w' = Some (Demo.model2 0.75) /\ scaler w' = Some Demo.scaler2.
Proof.
  apply (predict_catches_every_exception 32 (startup Demo.host_ok)
           (Demo.model2 0.75) Demo.scaler2
           (Demo.post (Demo.features (PyList [PyFloat 3])))
           (ValueError "X has a different number of features than StandardScaler is expecting")).
  - reflexivity.
  - reflexivity.
  - apply (raises_transforming _ _ _ _ _ (Demo.features (PyList [PyFloat 3]))
             {| shape := [1; 1]; data := [PyFloat 3] |}); reflexivity.
Defined.

(** ** NumPy: array construction and reshaping *)

Lemma scalar_shape (v : pyval) :
  is_list v = false -> discover_shape v = Some [] /\ leaves v = [v].
Proof. destruct v; intros H; try discriminate; split; reflexivity. Qed.

Lemma is_number_scalar (v : pyval) : is_number v = true -> is_list v = false.
Proof. destruct v; intros H; try discriminate; reflexivity. Qed.


Lemma shape_eqb_eq (s t : list nat) : shape_eqb s t = true -> s = t.
Proof. unfold shape_eqb. destruct (list_eq_dec Nat.eq_dec s t); [auto | discriminate]. Qed.

(** When the children agree, each of them has the common shape. *)
Lemma common_shape_all (ss : list (option (list nat))) (s : list nat) :
  common_shape ss = Some s -> ss = [] \/ Forall (fun o => o = Some s) ss.
Proof.
  destruct ss as [| [t |] rest]; cbn [common_shape]; [auto | | discriminate].
  destruct (forallb _ rest) eqn:Hall; [| discriminate].
  intros [= ->]. right. constructor; [reflexivity |].
  rewrite forallb_forall in Hall. apply Forall_forall. intros o Ho.
  specialize (Hall o Ho). destruct o as [u |]; [| discriminate].
  apply shape_eqb_eq in Hall. congruence.
Qed.

Lemma common_shape_scalars (xs : list pyval) :
  Forall (fun x => is_list x = false) xs ->
  common_shape (map discover_shape xs) = Some [] /\ flat_map leaves xs = xs.
Proof.
  intros H.
  assert (Hmap : Forall (fun o => o = Some []) (map discover_shape xs) /\
                 flat_map leaves xs = xs).
  { induction H as [| x r Hx _ [IHs IHl]]; [split; [constructor | reflexivity] |].
    destruct (scalar_shape x Hx) as [Hs Hl]. split.
    - cbn [map]. constructor; assumption.
    - cbn [flat_map]. rewrite Hl, IHl. reflexivity. }
  destruct Hmap as [Hs Hl]. split; [| exact Hl].
  destruct (map discover_shape xs) as [| o rest]; [reflexivity |].
  inversion Hs as [| ? ? Ho Hrest]; subst. cbn [common_shape].
  replace (forallb _ rest) with true; [reflexivity |].
  symmetry. apply forallb_forall. intros o Ho'.
  rewrite Forall_forall in Hrest. rewrite (Hrest o Ho'). reflexivity.
Qed.

(** A flat list of scalars is a 1-d array of its elements. *)
Lemma np_array_flat (maxdims : nat) (xs : list pyval) :
  1 <= maxdims ->
  Forall (fun x => is_list x = false) xs ->
  np_array maxdims (PyList xs) = Ret {| shape := [List.length xs]; data := xs |}.
Proof.
  intros Hmax Hxs. unfold np_array. cbn [discover_shape leaves].
  destruct (common_shape_scalars xs Hxs) as [-> ->].
  cbn [List.length]. destruct (Nat.leb_spec 1 maxdims); [reflexivity | lia].
Qed.

(** The discovered shape counts the scalars: [np.array] keeps them all, in
    row-major order. *)
Lemma discover_shape_size (v : pyval) (s : list nat) :
  discover_shape v = Some s -> prod s = List.length (leaves v).
Proof.
  revert s.
  induction v as [| b | z | f | x | l IH | d _] using pyval_ind; intros s;
    try (cbn; intros [= <-]; reflexivity).
  cbn [discover_shape leaves].
  destruct (common_shape (map discover_shape l)) as [t |] eqn:Hc; [| discriminate].
  intros [= <-]. cbn [prod fold_right]. fold (prod t).
  destruct (common_shape_all _ _ Hc) as [Hnil | Hall].
  - destruct l; [reflexivity | discriminate].
  - clear Hc. induction l as [| y r IHr]; [reflexivity |].
    inversion IH as [| ? ? IHy IHrest]; subst.
    inversion Hall as [| ? ? Hy Hrest]; subst.
    cbn [flat_map List.length]. rewrite length_app, <- (IHy t Hy), <- (IHr IHrest Hrest).
    lia.
Qed.

(** [reshape(1, -1)] never fails: one row holding everything. *)
Lemma np_reshape_row {A} (a : ndarray A) :
  np_reshape a [Some 1; None] = Ret {| shape := [1; size a]; data := data a |}.
Proof.
  unfold np_reshape. cbn [filter is_not_None negb List.length flat_map app prod fold_right map].
  change (1 * 1) with 1. rewrite Nat.mod_1_r, Nat.div_1_r. reflexivity.
Qed.

(** Line 52 on a value [np.array] accepts: a single row of the scalars. *)
Lemma input_matrix_row (maxdims : nat) (d : list (string * pyval)) (v : pyval)
  (s : list nat) :
  dict_get d "features" = Some v ->
  discover_shape v = Some s ->
  List.length s <= maxdims ->
  input_matrix maxdims (PyDict d) =
  Ret {| shape := [1; List.length (leaves v)]; data := leaves v |}.
Proof.
  intros Hd Hs Hmax. unfold input_matrix, py_getitem. rewrite Hd. cbn [obind].
  unfold np_array. rewrite Hs.
  destruct (Nat.leb_spec (List.length s) maxdims); [| lia].
  cbn [obind]. rewrite np_reshape_row. unfold size. cbn [shape data].
  rewrite (discover_shape_size v s Hs). reflexivity.
Qed.

Lemma flat_list_shape (xs : list pyval) :
  Forall (fun x => is_list x = false) xs ->
  discover_shape (PyList xs) = Some [List.length xs] /\ leaves (PyList xs) = xs.
Proof.
  intros H. cbn [discover_shape leaves].
  destruct (common_shape_scalars xs H) as [-> ->]. split; reflexivity.
Qed.

Lemma numbers_are_scalars (xs : list pyval) :
  forallb is_number xs = true -> Forall (fun x => is_list x = false) xs.
Proof.
  rewrite forallb_forall. intros H. apply Forall_forall. intros x Hx.
  apply is_number_scalar, H, Hx.
Qed.

(** ** Thresholding *)

(** The only float equal to one half is one half. *)
Lemma float_eqb_half (p : float) : (p =? 0.5)%float = true -> p = 0.5%float.
Proof.
  rewrite eqb_spec. intros H. apply Prim2SF_inj.
  change (Prim2SF 0.5) with (S754_finite false 4503599627370496 (-53)) in *.
  unfold SFeqb, SFcompare in H.
  destruct (Prim2SF p) as [sg | sg | | sg m e]; try discriminate.
  - destruct sg; discriminate.
  - destruct sg; [discriminate |].
    destruct (e ?= -53)%Z eqn:He; try discriminate.
    destruct (Pos.compare_cont Eq m 4503599627370496) eqn:Hm; try discriminate.
    apply Z.compare_eq in He. apply Pos.compare_eq in Hm. subst. reflexivity.
Qed.

(** [P[0][0]] of a well-sized matrix with at least one row and one column is
    its first element. *)
Lemma first_entry {A} (P : ndarray A) (r c : nat) :
  shape P = [S r; S c] -> List.length (data P) = size P ->
  exists p rest row,
    data P = p :: rest /\
    np_getitem0 P = Ret row /\
    np_getitem0 row = Ret {| shape := []; data := [p] |}.
Proof.
  intros Hs Hl. unfold size in Hl. rewrite Hs in Hl. cbn [prod fold_right] in Hl.
  destruct (data P) as [| p rest] eqn:Hd; [cbn in Hl; lia |].
  exists p, rest. eexists. split; [reflexivity |].
  unfold np_getitem0 at 1. rewrite Hs, Hd. split; [reflexivity |].
  unfold np_getitem0. cbn [shape data prod fold_right].
  rewrite Nat.mul_1_r. reflexivity.
Qed.

(** Lines 59-64 on a matrix of that kind: class and probability of the first
    entry. *)
Lemma answer_of_first_entry (P : ndarray float) (r c : nat) :
  shape P = [S r; S c] -> List.length (data P) = size P ->
  exists p rest,
    data P = p :: rest /\
    (let? cls := threshold_class P in success_response cls P) =
    Ret {| status := 200;
           body := PyDict [("prediction_class", PyInt (if (0.5 <? p)%float then 1 else 0));
                           ("prediction_prob", PyFloat p)] |}.
Proof.
  intros Hs Hl. destruct (first_entry P r c Hs Hl) as (p & rest & row & Hd & Hrow & Hp).
  exists p, rest. split; [exact Hd |].
  unfold threshold_class, np_astype_int, np_gt. cbn [shape data].
  rewrite map_map.
  pose (f := fun x : float => if (0.5 <? x)%float then 1%Z else 0%Z).
  destruct (first_entry {| shape := shape P; data := map f (data P) |} r c)
    as (q & rest' & row' & Hd' & Hrow' & Hq).
  { exact Hs. }
  { unfold size. cbn [shape data]. rewrite length_map. exact Hl. }
  cbn [data] in Hd'. rewrite Hd in Hd'. cbn [map] in Hd'. injection Hd' as <- _.
  unfold f in Hrow'. rewrite Hrow'. cbn [obind]. rewrite Hq. cbn [obind].
  unfold success_response. cbn [np_item data obind].
  rewrite Hrow. cbn [obind]. rewrite Hp. reflexivity.
Qed.

(** A response built by lines 61-64 has status 200. *)
Lemma success_response_status (c : ndarray Z) (P : ndarray float) (r : response) :
  success_response c P = Ret r -> status r = 200.
Proof.
  unfold success_response.
  destruct (np_item c); [| discriminate]. cbn [obind].
  destruct (np_getitem0 P) as [row |]; [| discriminate]. cbn [obind].
  destruct (np_getitem0 row) as [p00 |]; [| discriminate]. cbn [obind].
  destruct (np_item p00); [| discriminate]. cbn [obind].
  intros [= <-]. reflexivity.
Qed.

(** ** Requests with a feature vector *)

(** Line 52 on a flat numeric sequence: one row, as many columns as numbers. *)
Lemma input_matrix_numbers (maxdims : nat) (d : list (string * pyval))
  (xs : list pyval) :
  1 <= maxdims ->
  dict_get d "features" = Some (PyList xs) ->
  forallb is_number xs = true ->
  input_matrix maxdims (PyDict d) = Ret {| shape := [1; List.length xs]; data := xs |}.
Proof.
  intros Hmax Hd Hnum.
  destruct (flat_list_shape xs (numbers_are_scalars xs Hnum)) as [Hshape Hleaves].
  rewrite (input_matrix_row maxdims d (PyList xs) _ Hd Hshape Hmax).
  rewrite Hleaves. reflexivity.
Qed.

(** C7: with both artifacts bound, a numeric sequence of length [N] under
    [features] becomes the matrix of one row and [N] columns holding the
    sequence; after the body is read, that matrix goes to the scaler's
    [transform], and what [transform] returns goes to the classifier's
    [predict], in this order and with no other call. *)
Theorem predict_single_row (maxdims : nat) (w : world) (km : Keras.Model)
  (sc : Sklearn.Scaler) (req : request) (d : list (string * pyval))
  (xs : list pyval) :
  1 <= maxdims ->
  model w = Some km -> scaler w = Some sc ->
  get_json req = Ret (PyDict d) ->
  dict_get d "features" = Some (PyList xs) ->
  forallb is_number xs = true ->
  let X := {| shape := [1; List.length xs]; data := xs |} in
  input_matrix maxdims (PyDict d) = Ret X /\
  trace (snd (predict maxdims req w)) =
  trace w ++ EGetJson :: ETransform X ::
    match Sklearn.transform sc X with
    | Ret Y => [EPredict Y]
    | Raise _ => []
    end.
Proof.
  intros Hmax Hm Hs Hj Hd Hnum X. subst X.
  pose proof (input_matrix_numbers maxdims d xs Hmax Hd Hnum) as Hin.
  split; [exact Hin |].
  rewrite (predict_loaded _ _ _ _ _ Hm Hs). unfold try_except.
  rewrite predict_body_run, Hj, Hin.
  destruct (Sklearn.transform sc _) as [Y | e].
  - cbv zeta. destruct (Keras.predict km Y) as [P | e].
    + destruct (let? c := threshold_class P in success_response c P);
        cbn [snd trace emit ret]; rewrite <- !app_assoc; reflexivity.
    + cbn [snd trace emit ret]. rewrite <- !app_assoc. reflexivity.
  - cbn [snd trace emit ret]. rewrite <- !app_assoc. reflexivity.
Qed.

Lemma predict_single_row_witness :
  trace (snd (predict 32
                (Demo.post (Demo.features (PyList [PyFloat 3; PyFloat 6])))
                (startup Demo.host_ok))) =
  trace (startup Demo.host_ok) ++
  [EGetJson;
   ETransform {| shape := [1; 2]; data := [PyFloat 3; PyFloat 6] |};
   EPredict {| shape := [1; 2]; data := [1; 1]%float |}].
Proof.
  apply (predict_single_row 32 (startup Demo.host_ok) (Demo.model2 0.75)
           Demo.scaler2
           (Demo.post (Demo.features (PyList [PyFloat 3; PyFloat 6])))
           [("features", PyList [PyFloat 3; PyFloat 6])]
           [PyFloat 3; PyFloat 6]);
    solve [reflexivity | lia].
Defined.

(** C5 (amended): the handler has no length check of its own.  With both
    artifacts bound, a numeric sequence of any length [k] under [features]
    (the empty one included) always gets a response, with status 200 or 400:
    after the body is read, the matrix of one row and [k] columns is handed
    to the scaler as it is; if the scaler or the classifier raises on it, the
    response is 400 with the message of that exception; if they take it and
    the classifier returns a well-sized matrix with at least one row and one
    column, the response is 200 with the first entry as probability and the
    class thresholded from it; and a 400 always answers an exception raised
    inside the [try] block. *)
Theorem predict_length_unchecked (maxdims : nat) (w : world) (km : Keras.Model)
  (sc : Sklearn.Scaler) (req : request) (d : list (string * pyval))
  (xs : list pyval) :
  1 <= maxdims ->
  model w = Some km -> scaler w = Some sc ->
  get_json req = Ret (PyDict d) ->
  dict_get d "features" = Some (PyList xs) ->
  forallb is_number xs = true ->
  let X := {| shape := [1; List.length xs]; data := xs |} in
  exists r w',
    predict maxdims req w = (Ret r, w') /\
    (status r = 200 \/ status r = 400) /\
    (exists rest, trace w' = trace w ++ EGetJson :: ETransform X :: rest) /\
    (forall e, pipeline sc km X = Raise e ->
       r = {| status := 400; body := PyDict [("error", PyStr (str_exn e))] |}) /\
    (forall P rows cols, pipeline sc km X = Ret P ->
       shape P = [S rows; S cols] -> List.length (data P) = size P ->
       exists p,
         nth_error (data P) 0 = Some p /\
         r = {| status := 200;
                body := PyDict [("prediction_class",
                                 PyInt (if (0.5 <? p)%float then 1 else 0));
                                ("prediction_prob", PyFloat p)] |}) /\
    (status r = 400 ->
       exists e, raises_in_try maxdims km sc req e /\
                 r = {| status := 400; body := PyDict [("error", PyStr (str_exn e))] |}).
Proof.
  intros Hmax Hm Hs Hj Hd Hnum X.
  pose proof (input_matrix_numbers maxdims d xs Hmax Hd Hnum) as Hin. fold X in Hin.
  rewrite (predict_loaded _ _ _ _ _ Hm Hs). unfold try_except, pipeline.
  rewrite predict_body_run, Hj, Hin.
  destruct (Sklearn.transform sc X) as [Y | e] eqn:Ht; cbn [obind].
  - cbv zeta. destruct (Keras.predict km Y) as [P | e] eqn:Hp.
    + destruct (threshold_class P) as [c | e] eqn:Hc; cbn [obind].
      * destruct (success_response c P) as [r | e] eqn:Ha.
        -- eexists; eexists. split; [reflexivity |].
           pose proof (success_response_status c P r Ha) as Hst.
           split; [left; exact Hst |].
           split; [eexists; cbn [snd trace emit]; rewrite <- !app_assoc; reflexivity |].
           split; [discriminate |].
           split; [| rewrite Hst; discriminate].
           intros P' rows cols [= <-] Hshape Hsize.
           destruct (answer_of_first_entry P rows cols Hshape Hsize)
             as (p & rest & Hdata & Hans).
           rewrite Hc in Hans. cbn [obind] in Hans. rewrite Ha in Hans.
           injection Hans as ->. exists p. rewrite Hdata. split; reflexivity.
        -- eexists; eexists. split; [reflexivity |].
           split; [right; reflexivity |].
           split; [eexists; cbn [snd trace emit]; rewrite <- !app_assoc; reflexivity |].
           split; [discriminate |].
           split.
           ++ intros P' rows cols [= <-] Hshape Hsize.
              destruct (answer_of_first_entry P rows cols Hshape Hsize)
                as (p & rest & Hdata & Hans).
              rewrite Hc in Hans. cbn [obind] in Hans. rewrite Ha in Hans.
              discriminate.
           ++ intros _. exists e. split; [| reflexivity].
              apply (raises_answering _ _ _ _ _ (PyDict d) X Y P c Hj Hin Ht Hp Hc Ha).
      * eexists; eexists. split; [reflexivity |].
        split; [right; reflexivity |].
        split; [eexists; cbn [snd trace emit]; rewrite <- !app_assoc; reflexivity |].
        split; [discriminate |].
        split.
        -- intros P' rows cols [= <-] Hshape Hsize.
           destruct (answer_of_first_entry P rows cols Hshape Hsize)
             as (p & rest & Hdata & Hans).
           rewrite Hc in Hans. discriminate.
        -- intros _. exists e. split; [| reflexivity].
           apply (raises_thresholding _ _ _ _ _ (PyDict d) X Y P Hj Hin Ht Hp Hc).
    + eexists; eexists. split; [reflexivity |].
      split; [right; reflexivity |].
      split; [eexists; cbn [snd trace emit]; rewrite <- !app_assoc; reflexivity |].
      split; [intros e' [= <-]; reflexivity |].
      split; [discriminate |].
      intros _. exists e. split; [| reflexivity].
      apply (raises_predicting _ _ _ _ _ (PyDict d) X Y Hj Hin Ht Hp).
  - eexists; eexists. split; [reflexivity |].
    split; [right; reflexivity |].
    split; [eexists; cbn [snd trace emit]; rewrite <- !app_assoc; reflexivity |].
    split; [intros e' [= <-]; reflexivity |].
    split; [discriminate |].
    intros _. exists e. split; [| reflexivity].
    apply (raises_transforming _ _ _ _ _ (PyDict d) X Hj Hin Ht).
Qed.

(** C5 as stated fails: the classifier takes rows of two columns only and the
    scaler holds two means, but the scaler is written without a check of the
    column count.  The two-element array is answered as intended; the
    one-element array [[3.0]] is broadcast against both means to the row
    [[1.0, 0.25]], and the request is answered 200 with a prediction, not
    400. *)
Lemma wrong_length_answered_200 :
  let w := startup Demo.host_unchecked_scaler in
  model w = Some (Demo.model2 0.75) /\
  fst (predict 32 (Demo.post (Demo.features (PyList [PyFloat 3; PyFloat 6]))) w) =
  Ret {| status := 200;
         body := PyDict [("prediction_class", PyInt 1);
                         ("prediction_prob", PyFloat 0.75)] |} /\
  Keras.predict (Demo.model2 0.75) {| shape := [1; 1]; data := [1]%float |} =
  Raise (ValueError "Input is incompatible with the layer: expected a different last axis") /\
  predict 32 (Demo.post (Demo.features (PyList [PyFloat 3]))) w =
  (Ret {| status := 200;
          body := PyDict [("prediction_class", PyInt 1);
                          ("prediction_prob", PyFloat 0.75)] |},
   {| model := model w; scaler := scaler w;
      trace := trace w ++
               [EGetJson;
                ETransform {| shape := [1; 1]; data := [PyFloat 3] |};
                EPredict {| shape := [1; 2]; data := [1; 0.25]%float |}] |}).
Proof. repeat split. Qed.

Lemma predict_length_unchecked_witness :
  fst (predict 32 (Demo.post (Demo.features (PyList []))) (startup Demo.host_ok)) =
  Ret {| status := 400;
         body := PyDict [("error",
                         PyStr "X has a different number of features than StandardScaler is expecting")] |}.
Proof.
  destruct (predict_length_unchecked 32 (startup Demo.host_ok) (Demo.model2 0.75)
              Demo.scaler2 (Demo.post (Demo.features (PyList [])))
              [("features", PyList [])] [])
    as (r & w' & Hp & _ & _ & Hraise & _).
  - lia.
  - reflexivity.
  - reflexivity.
  - reflexivity.
  - reflexivity.
  - reflexivity.
  - rewrite Hp. cbn [fst].
    rewrite (Hraise (ValueError "X has a different number of features than StandardScaler is expecting")
               eq_refl).
    reflexivity.
Defined.

(** C3: with both artifacts bound and a numeric sequence that the scaler and
    the classifier accept, when the classifier returns a well-sized matrix of
    probabilities with at least one row and one column, the answer is 200
    with the first entry [p] as [prediction_prob] and a label as
    [prediction_class] such that [p] is in [0,1], the label is 0 or 1, the
    label is 1 exactly when [p > 0.5], and [p] equal to one half gives 0. *)
Theorem predict_threshold (maxdims : nat) (w : world) (km : Keras.Model)
  (sc : Sklearn.Scaler) (req : request) (d : list (string * pyval))
  (xs : list pyval) (Y P : ndarray float) (r c : nat) :
  1 <= maxdims ->
  model w = Some km -> scaler w = Some sc ->
  get_json req = Ret (PyDict d) ->
  dict_get d "features" = Some (PyList xs) ->
  forallb is_number xs = true ->
  Sklearn.transform sc {| shape := [1; List.length xs]; data := xs |} = Ret Y ->
  Keras.predict km Y = Ret P ->
  shape P = [S r; S c] ->
  probabilities P ->
  exists (label : Z) (p : float),
    fst (predict maxdims req w) =
    Ret {| status := 200;
           body := PyDict [("prediction_class", PyInt label);
                           ("prediction_prob", PyFloat p)] |} /\
    nth_error (data P) 0 = Some p /\
    in_unit_interval p = true /\
    (label = 0%Z \/ label = 1%Z) /\
    (label = 1%Z <-> (0.5 <? p)%float = true) /\
    ((p =? 0.5)%float = true -> label = 0%Z).
Proof.
  intros Hmax Hm Hs Hj Hd Hnum Ht Hp Hshape [Hsize Hprob].
  pose proof (input_matrix_numbers maxdims d xs Hmax Hd Hnum) as Hin.
  destruct (answer_of_first_entry P r c Hshape Hsize) as (p & rest & Hdata & Hans).
  exists (if (0.5 <? p)%float then 1%Z else 0%Z), p.
  split; [| split; [| split; [| split; [| split]]]].
  - rewrite (predict_loaded _ _ _ _ _ Hm Hs). unfold try_except.
    rewrite predict_body_run, Hj, Hin, Ht. cbv zeta. rewrite Hp, Hans. reflexivity.
  - rewrite Hdata. reflexivity.
  - rewrite Hdata in Hprob. cbn [forallb] in Hprob.
    apply andb_true_iff in Hprob. apply Hprob.
  - destruct (0.5 <? p)%float; auto.
  - destruct (0.5 <? p)%float; split; intros H; try reflexivity; discriminate.
  - intros Heq. apply float_eqb_half in Heq. subst p. reflexivity.
Qed.

Lemma predict_threshold_witness :
  exists (label : Z) (p : float),
    fst (predict 32 (Demo.post (Demo.features (PyList [PyFloat 3; PyFloat 6])))
           {| model := Some (Demo.model2 0.5); scaler := Some Demo.scaler2;
              trace := [] |}) =
    Ret {| status := 200;
           body := PyDict [("prediction_class", PyInt label);
                           ("prediction_prob", PyFloat p)] |} /\
    nth_error [0.5%float] 0 = Some p /\
    in_unit_interval p = true /\
    (label = 0%Z \/ label = 1%Z) /\
    (label = 1%Z <-> (0.5 <? p)%float = true) /\
    ((p =? 0.5)%float = true -> label = 0%Z).
Proof.
  apply (predict_threshold 32
           {| model := Some (Demo.model2 0.5); scaler := Some Demo.scaler2;
              trace := [] |}
           (Demo.model2 0.5) Demo.scaler2
           (Demo.post (Demo.features (PyList [PyFloat 3; PyFloat 6])))
           [("features", PyList [PyFloat 3; PyFloat 6])]
           [PyFloat 3; PyFloat 6]
           {| shape := [1; 2]; data := [1; 1]%float |}
           {| shape := [1; 1]; data := [0.5%float] |} 0 0).
  - lia.
  - reflexivity.
  - reflexivity.
  - reflexivity.
  - reflexivity.
  - reflexivity.
  - reflexivity.
  - reflexivity.
  - reflexivity.
  - split; reflexivity.
Defined.



(** ** Purity *)

(** No request rebinds [model] or [scaler]. *)
Lemma predict_keeps_globals (maxdims : nat) (req : request) (w : world) :
  model (snd (predict maxdims req w)) = model w /\
  scaler (snd (predict maxdims req w)) = scaler w.
Proof.
  unfold predict, bind, get_model, get_scaler.
  destruct (model w) as [km |] eqn:Hm; [| split; cbn; congruence].
  destruct (scaler w) as [sc |] eqn:Hs; [| split; cbn; congruence].
  unfold try_except. rewrite predict_body_run.
  destruct (get_json req) as [data | e]; [| split; cbn; congruence].
  destruct (input_matrix maxdims data) as [X | e]; [| split; cbn; congruence].
  destruct (Sklearn.transform sc X) as [Y | e]; [| split; cbn; congruence].
  cbv zeta.
  destruct (Keras.predict km Y) as [P | e]; [| split; cbn; congruence].
  destruct (let? c := threshold_class P in success_response c P);
    split; cbn; congruence.
Qed.

(** The response depends on the world only through [model] and [scaler], and
    on a parsed object only through its [features] entry. *)
Lemma predict_response_determined (maxdims : nat) (w w' : world)
  (req req' : request) (d d' : list (string * pyval)) :
  model w' = model w -> scaler w' = scaler w ->
  get_json req = Ret (PyDict d) -> get_json req' = Ret (PyDict d') ->
  dict_get d' "features" = dict_get d "features" ->
  fst (predict maxdims req w) = fst (predict maxdims req' w').
Proof.
  intros Hm Hs Hj Hj' Hd.
  assert (Hin : input_matrix maxdims (PyDict d') = input_matrix maxdims (PyDict d)).
  { unfold input_matrix, py_getitem. rewrite Hd. reflexivity. }
  unfold predict, bind, get_model, get_scaler. rewrite Hm, Hs.
  destruct (model w) as [km |]; [| reflexivity].
  destruct (scaler w) as [sc |]; [| reflexivity].
  unfold try_except. rewrite !predict_body_run, Hj, Hj', Hin.
  destruct (input_matrix maxdims (PyDict d)) as [X | e]; [| reflexivity].
  destruct (Sklearn.transform sc X) as [Y | e]; [| reflexivity].
  cbv zeta.
  destruct (Keras.predict km Y) as [P | e]; [| reflexivity].
  destruct (let? c := threshold_class P in success_response c P); reflexivity.
Qed.

(** C8: two requests carrying the same [features] value, handled one after
    the other, get the same response, and after each of them [model] and
    [scaler] are bound to what they were bound to before. *)
Theorem predict_is_pure (maxdims : nat) (w : world) (req1 req2 : request)
  (d1 d2 : list (string * pyval)) (v : pyval) :
  get_json req1 = Ret (PyDict d1) -> get_json req2 = Ret (PyDict d2) ->
  dict_get d1 "features" = Some v -> dict_get d2 "features" = Some v ->
  let w1 := snd (predict maxdims req1 w) in
  let w2 := snd (predict maxdims req2 w1) in
  fst (predict maxdims req1 w) = fst (predict maxdims req2 w1) /\
  model w1 = model w /\ scaler w1 = scaler w /\
  model w2 = model w /\ scaler w2 = scaler w.
Proof.
  intros Hj1 Hj2 Hd1 Hd2 w1 w2.
  destruct (predict_keeps_globals maxdims req1 w) as [Hm1 Hs1].
  destruct (predict_keeps_globals maxdims req2 w1) as [Hm2 Hs2].
  fold w1 in Hm1, Hs1. fold w2 in Hm2, Hs2.
  split; [| repeat split; congruence].
  apply (predict_response_determined maxdims w w1 req1 req2 d1 d2 Hm1 Hs1 Hj1 Hj2).
  congruence.
Qed.

Lemma predict_is_pure_witness :
  let req := Demo.post (Demo.features (PyList [PyFloat 3; PyFloat 6])) in
  let w := startup Demo.host_ok in
  let w1 := snd (predict 32 req w) in
  let w2 := snd (predict 32 req w1) in
  fst (predict 32 req w) = fst (predict 32 req w1) /\
  model w1 = model w /\ scaler w1 = scaler w /\
  model w2 = model w /\ scaler w2 = scaler w.
Proof.
  apply (predict_is_pure 32 (startup Demo.host_ok)
           (Demo.post (Demo.features (PyList [PyFloat 3; PyFloat 6])))
           (Demo.post (Demo.features (PyList [PyFloat 3; PyFloat 6])))
           [("features", PyList [PyFloat 3; PyFloat 6])]
           [("features", PyList [PyFloat 3; PyFloat 6])]
           (PyList [PyFloat 3; PyFloat 6]));
    reflexivity.
Defined.

(** * Further properties of the service *)

(** ** Startup *)

(** X1: a missing classifier file is only warned about: the classifier stays
    unset, the first line printed names the path looked for, no load of the
    classifier is attempted, and the scaler is still loaded from its own
    file when that file exists and loads. *)
Theorem missing_model_file_only_warns (h : host) :
  path_exists h (MODEL_PATH h) = false ->
  model (startup h) = None /\
  hd_error (trace (startup h)) =
    Some (EPrint ("Warning: Model not found at " ++ str_path (MODEL_PATH h))) /\
  (forall p, ~ In (ELoadModel p) (trace (startup h))) /\
  scaler (startup h) =
    (if path_exists h (SCALER_PATH h)
     then match joblib_load h (SCALER_PATH h) with
          | Ret sc => Some sc
          | Raise _ => None
          end
     else None).
Proof.
  intros Hm. unfold startup. rewrite load_artifacts_run, Hm. cbn [snd].
  destruct (path_exists h (SCALER_PATH h)).
  - destruct (joblib_load h (SCALER_PATH h)); cbn;
      repeat split; try reflexivity; intros p [H | [H | [H | []]]]; discriminate.
  - cbn. repeat split; try reflexivity. intros p [H | [H | []]]; discriminate.
Qed.

Lemma missing_model_file_only_warns_witness :
  let h := {| script_file := Demo.script;
              path_exists := fun p =>
                Demo.path_eqb p ["srv"; "app"; "Membangun_model"; "artifacts"; "scaler.pkl"];
              load_model := fun _ => Raise (OtherError "OSError" "No such file or directory");
              joblib_load := fun _ => Ret Demo.scaler2 |} in
  model (startup h) = None /\
  hd_error (trace (startup h)) =
    Some (EPrint "Warning: Model not found at /srv/app/Membangun_model/artifacts/baseline_model.h5") /\
  scaler (startup h) = Some Demo.scaler2.
Proof.
  cbv zeta.
  destruct (missing_model_file_only_warns
              {| script_file := Demo.script;
                 path_exists := fun p =>
                   Demo.path_eqb p ["srv"; "app"; "Membangun_model"; "artifacts"; "scaler.pkl"];
                 load_model := fun _ => Raise (OtherError "OSError" "No such file or directory");
                 joblib_load := fun _ => Ret Demo.scaler2 |})
    as (Hm & Hhd & _ & Hs).
  - reflexivity.
  - split; [exact Hm | split; [exact Hhd | exact Hs]].
Defined.

(** Membership of a load event in a trace written out event by event. *)
Ltac decide_load_events :=
  cbn [trace In]; intros; repeat split; intros;
  repeat match goal with
         | H : _ \/ _ |- _ => destruct H
         | H : False |- _ => destruct H
         | H : ELoadModel _ = ELoadModel _ |- _ => injection H as <-
         | H : EJoblibLoad _ = EJoblibLoad _ |- _ => injection H as <-
         | H : _ = _ :> event |- _ => discriminate H
         end; auto.

(** X2: the loader hands a path to [load_model] or [joblib.load] only if the
    file exists, and only the path of that artifact: a missing file is never
    opened. *)
Theorem loaders_only_open_existing_files (h : host) (p : path) :
  In (ELoadModel p) (trace (startup h)) \/ In (EJoblibLoad p) (trace (startup h)) ->
  path_exists h p = true /\
  (In (ELoadModel p) (trace (startup h)) -> p = MODEL_PATH h) /\
  (In (EJoblibLoad p) (trace (startup h)) -> p = SCALER_PATH h).
Proof.
  unfold startup. rewrite load_artifacts_run. cbn [snd].
  destruct (path_exists h (MODEL_PATH h)) eqn:Hm;
    [destruct (load_model h (MODEL_PATH h)) as [km | e] |];
    try (destruct (path_exists h (SCALER_PATH h)) eqn:Hs;
         [destruct (joblib_load h (SCALER_PATH h)) |]);
    decide_load_events.
Qed.

Lemma loaders_only_open_existing_files_witness :
  path_exists Demo.host_ok (MODEL_PATH Demo.host_ok) = true.
Proof.
  apply (loaders_only_open_existing_files Demo.host_ok (MODEL_PATH Demo.host_ok)).
  left. cbn. left. reflexivity.
Defined.

(** What the loader leaves bound, in terms of what it found. *)
Lemma startup_bindings (h : host) :
  model (startup h) =
    (if path_exists h (MODEL_PATH h)
     then match load_model h (MODEL_PATH h) with
          | Ret km => Some km
          | Raise _ => None
          end
     else None) /\
  scaler (startup h) =
    (if path_exists h (MODEL_PATH h)
     then match load_model h (MODEL_PATH h) with
          | Ret _ =>
              if path_exists h (SCALER_PATH h)
              then match joblib_load h (SCALER_PATH h) with
                   | Ret sc => Some sc
                   | Raise _ => None
                   end
              else None
          | Raise _ => None
          end
     else if path_exists h (SCALER_PATH h)
          then match joblib_load h (SCALER_PATH h) with
               | Ret sc => Some sc
               | Raise _ => None
               end
          else None).
Proof.
  unfold startup. rewrite load_artifacts_run. cbn [snd].
  destruct (path_exists h (MODEL_PATH h));
    [destruct (load_model h (MODEL_PATH h)) |];
    try (destruct (path_exists h (SCALER_PATH h));
         [destruct (joblib_load h (SCALER_PATH h)) |]);
    split; reflexivity.
Qed.

(** What the handler answers, by the two bindings. *)
Lemma predict_answer (maxdims : nat) (w : world) (req : request) :
  fst (predict maxdims req w) =
  match model w, scaler w with
  | Some km, Some sc =>
      match fst (predict_body maxdims km sc req w) with
      | Ret r => Ret r
      | Raise e => Ret (error_response e)
      end
  | _, _ => Ret not_initialized
  end.
Proof.
  unfold predict, bind, get_model, get_scaler.
  destruct (model w) as [km |]; [| reflexivity].
  destruct (scaler w) as [sc |]; [| reflexivity].
  unfold try_except.
  destruct (predict_body maxdims km sc req w) as [[r | e] w']; reflexivity.
Qed.

(** What the [try] block returns has status 200. *)
Lemma predict_body_status (maxdims : nat) (km : Keras.Model) (sc : Sklearn.Scaler)
  (req : request) (w : world) (r : response) :
  fst (predict_body maxdims km sc req w) = Ret r -> status r = 200.
Proof.
  rewrite predict_body_run.
  destruct (get_json req) as [data |]; [| discriminate].
  destruct (input_matrix maxdims data) as [X |]; [| discriminate].
  destruct (Sklearn.transform sc X) as [Y |]; [| discriminate].
  cbv zeta.
  destruct (Keras.predict km Y) as [P |]; [| discriminate].
  cbn [fst].
  destruct (threshold_class P) as [c |]; [| discriminate]. cbn [obind].
  apply success_response_status.
Qed.

(** X6: the handler always answers, with status 200, 400 or 500, and the
    status is 500 exactly when the classifier or the scaler is unset: once
    both are bound, every failure, the artifacts' own included, is a 400. *)
Theorem predict_status_codes (maxdims : nat) (w : world) (req : request) :
  exists r w',
    predict maxdims req w = (Ret r, w') /\
    (status r = 200 \/ status r = 400 \/ status r = 500) /\
    (status r = 500 <-> model w = None \/ scaler w = None).
Proof.
  destruct (predict_total maxdims w req) as (r & w' & Hp).
  exists r, w'. split; [exact Hp |].
  pose proof (predict_answer maxdims w req) as Ha. rewrite Hp in Ha. cbn [fst] in Ha.
  destruct (model w) as [km |].
  - destruct (scaler w) as [sc |].
    + destruct (fst (predict_body maxdims km sc req w)) as [r0 | e] eqn:Hb.
      * injection Ha as ->. rewrite (predict_body_status _ _ _ _ _ _ Hb).
        split; [auto |]. split; [discriminate | intros [H | H]; discriminate].
      * injection Ha as ->. cbn. split; [auto |].
        split; [discriminate | intros [H | H]; discriminate].
    + injection Ha as ->. cbn. split; [auto |]. split; auto.
  - injection Ha as ->. cbn. split; [auto |]. split; auto.
Qed.

(** X3: after startup, [/predict] answers 500 to a request exactly when the
    loader did not end with both artifacts loaded (a file missing, or a load
    that raised). *)
Theorem service_unavailable_iff_degraded_startup (maxdims : nat) (h : host)
  (req : request) :
  fst (predict maxdims req (startup h)) =
    Ret {| status := 500;
           body := PyDict [("error", PyStr "Model or Scaler not initialized")] |} <->
  ~ both_artifacts_load h.
Proof.
  rewrite predict_answer. destruct (startup_bindings h) as [-> ->].
  unfold both_artifacts_load.
  destruct (path_exists h (MODEL_PATH h)).
  - destruct (load_model h (MODEL_PATH h)) as [km | e].
    + destruct (path_exists h (SCALER_PATH h)).
      * destruct (joblib_load h (SCALER_PATH h)) as [sc | e].
        -- split.
           ++ intros H. exfalso.
              destruct (fst (predict_body maxdims km sc req _)) as [r | e] eqn:Hb.
              ** apply predict_body_status in Hb. injection H as ->. discriminate.
              ** discriminate.
           ++ intros H. exfalso. apply H. repeat split; eauto.
        -- split; [| reflexivity]. intros _ (_ & _ & _ & sc & Hsc). discriminate.
      * split; [| reflexivity]. intros _ (_ & _ & Hs & _). discriminate.
    + split; [| reflexivity]. intros _ (_ & (km & Hkm) & _). discriminate.
  - split; [| reflexivity]. intros _ (Hm & _). discriminate.
Qed.

(** X4: whenever [/health] says [model_loaded] is false, [/predict] answers
    500 to every request. *)
Theorem health_false_means_unavailable (maxdims : nat) (w : world) (req : request) :
  fst (health w) =
    Ret {| status := 200;
           body := PyDict [("status", PyStr "healthy"); ("model_loaded", PyBool false)] |} ->
  fst (predict maxdims req w) =
    Ret {| status := 500;
           body := PyDict [("error", PyStr "Model or Scaler not initialized")] |}.
Proof.
  unfold health, bind, get_model, ret, jsonify. cbn [fst].
  rewrite predict_answer.
  destruct (model w); [discriminate | reflexivity].
Qed.

Lemma health_false_means_unavailable_witness :
  fst (predict 32 (Demo.post (Demo.features (PyList [PyFloat 3; PyFloat 6])))
         (startup Demo.host_corrupt_model)) =
    Ret {| status := 500;
           body := PyDict [("error", PyStr "Model or Scaler not initialized")] |}.
Proof.
  apply (health_false_means_unavailable 32 (startup Demo.host_corrupt_model)).
  reflexivity.
Defined.

(** ** Responses *)

Lemma In_firstn {A} (n : nat) (l : list A) (x : A) : In x (firstn n l) -> In x l.
Proof.
  revert l. induction n as [| n IH]; intros [| y l]; cbn; try tauto.
  intros [H | H]; [left; exact H | right; exact (IH l H)].
Qed.

(** Lines 59-64 on any classifier output: when they produce an answer, its
    two fields come from one entry of the output. *)
Lemma answer_from_one_entry (P : ndarray float) (c : ndarray Z) (r : response) :
  threshold_class P = Ret c ->
  success_response c P = Ret r ->
  exists p,
    In p (data P) /\
    r = {| status := 200;
           body := PyDict [("prediction_class", PyInt (if (0.5 <? p)%float then 1 else 0));
                           ("prediction_prob", PyFloat p)] |}.
Proof.
  unfold threshold_class, success_response, np_astype_int, np_gt, np_getitem0.
  cbn [shape data]. rewrite map_map.
  destruct (shape P) as [| [| a] [| [| b] s]]; cbn [obind shape data]; try discriminate.
  rewrite !firstn_map.
  set (q := firstn (prod s) (firstn (prod (S b :: s)) (data P))).
  assert (Hq : forall x, In x q -> In x (data P)).
  { intros x Hx. unfold q in Hx. apply In_firstn in Hx. apply In_firstn in Hx. exact Hx. }
  intros [= <-]. unfold np_item. cbn [data].
  destruct q as [| p [| p' q']]; cbn [map obind]; try discriminate.
  intros [= <-]. exists p. split; [apply Hq; left; reflexivity | reflexivity].
Qed.

(** X5: whatever the classifier returns (probabilities or not), a response
    with status 200 carries as [prediction_prob] an entry [p] of the
    classifier's output for the scaled input, and as [prediction_class] 1 if
    [p > 0.5] and 0 otherwise; the two fields never disagree. *)
Theorem success_is_thresholded (maxdims : nat) (w : world) (req : request)
  (r : response) :
  fst (predict maxdims req w) = Ret r ->
  status r = 200 ->
  exists (km : Keras.Model) (sc : Sklearn.Scaler) (parsed : pyval)
         (X : ndarray pyval) (Y P : ndarray float) (p : float),
    model w = Some km /\ scaler w = Some sc /\
    get_json req = Ret parsed /\
    input_matrix maxdims parsed = Ret X /\
    Sklearn.transform sc X = Ret Y /\
    Keras.predict km Y = Ret P /\
    In p (data P) /\
    body r = PyDict [("prediction_class", PyInt (if (0.5 <? p)%float then 1 else 0));
                     ("prediction_prob", PyFloat p)].
Proof.
  rewrite predict_answer.
  destruct (model w) as [km |]; [| intros [= <-]; discriminate].
  destruct (scaler w) as [sc |]; [| intros [= <-]; discriminate].
  rewrite predict_body_run.
  destruct (get_json req) as [parsed |]; [| intros [= <-]; discriminate].
  destruct (input_matrix maxdims parsed) as [X |] eqn:Hi; [| intros [= <-]; discriminate].
  destruct (Sklearn.transform sc X) as [Y |] eqn:Ht; [| intros [= <-]; discriminate].
  cbv zeta.
  destruct (Keras.predict km Y) as [P |] eqn:Hp; [| intros [= <-]; discriminate].
  cbn [fst].
  destruct (threshold_class P) as [c |] eqn:Hc; [| intros [= <-]; discriminate].
  cbn [obind].
  destruct (success_response c P) as [r0 |] eqn:Ha; [| intros [= <-]; discriminate].
  intros [= <-] _.
  destruct (answer_from_one_entry P c r0 Hc Ha) as (p & Hin & ->).
  exists km, sc, parsed, X, Y, P, p. repeat split; assumption.
Qed.

Lemma success_is_thresholded_witness :
  exists (km : Keras.Model) (sc : Sklearn.Scaler) (parsed : pyval)
         (X : ndarray pyval) (Y P : ndarray float) (p : float),
    model (startup Demo.host_ok) = Some km /\ scaler (startup Demo.host_ok) = Some sc /\
    get_json (Demo.post (Demo.features (PyList [PyFloat 3; PyFloat 6]))) = Ret parsed /\
    input_matrix 32 parsed = Ret X /\
    Sklearn.transform sc X = Ret Y /\
    Keras.predict km Y = Ret P /\
    In p (data P) /\
    PyDict [("prediction_class", PyInt 1); ("prediction_prob", PyFloat 0.75)] =
    PyDict [("prediction_class", PyInt (if (0.5 <? p)%float then 1 else 0));
            ("prediction_prob", PyFloat p)].
Proof.
  apply (success_is_thresholded 32 (startup Demo.host_ok)
           (Demo.post (Demo.features (PyList [PyFloat 3; PyFloat 6])))
           {| status := 200;
              body := PyDict [("prediction_class", PyInt 1);
                              ("prediction_prob", PyFloat 0.75)] |});
    reflexivity.
Defined.

(** ** What reaches the artifacts *)

(** X7: with both artifacts bound, a body that parses to anything but an
    object (an array, a string, a number, a boolean, null) is answered with
    status 400 and the [TypeError] of the subscript; only the body was read,
    the scaler and the classifier are not called. *)
Theorem non_object_body_rejected (maxdims : nat) (w : world) (km : Keras.Model)
  (sc : Sklearn.Scaler) (req : request) (v : pyval) :
  model w = Some km -> scaler w = Some sc ->
  get_json req = Ret v ->
  is_dict v = false ->
  exists msg,
    py_getitem v "features" = Raise (TypeError msg) /\
    predict maxdims req w =
    (Ret {| status := 400; body := PyDict [("error", PyStr msg)] |},
     {| model := model w; scaler := scaler w; trace := trace w ++ [EGetJson] |}).
Proof.
  intros Hm Hs Hj Hv.
  assert (Hg : exists msg, py_getitem v "features" = Raise (TypeError msg)).
  { destruct v; try discriminate; eexists; reflexivity. }
  destruct Hg as [msg Hg]. exists msg. split; [exact Hg |].
  apply (predict_body_raises _ _ _ _ _ _ (TypeError msg) Hm Hs).
  rewrite predict_body_run, Hj. unfold input_matrix. rewrite Hg. reflexivity.
Qed.

Lemma non_object_body_rejected_witness :
  exists msg,
    py_getitem (PyList [PyFloat 3; PyFloat 6]) "features" = Raise (TypeError msg) /\
    predict 32 (Demo.post (PyList [PyFloat 3; PyFloat 6])) (startup Demo.host_ok) =
    (Ret {| status := 400; body := PyDict [("error", PyStr msg)] |},
     {| model := model (startup Demo.host_ok); scaler := scaler (startup Demo.host_ok);
        trace := trace (startup Demo.host_ok) ++ [EGetJson] |}).
Proof.
  apply (non_object_body_rejected 32 (startup Demo.host_ok) (Demo.model2 0.75)
           Demo.scaler2 (Demo.post (PyList [PyFloat 3; PyFloat 6]))
           (PyList [PyFloat 3; PyFloat 6]));
    reflexivity.
Defined.

(** Whenever line 52 succeeds, the result is a single row holding all the
    scalars of the [features] value. *)
Lemma input_matrix_is_one_row (maxdims : nat) (parsed : pyval) (X : ndarray pyval) :
  input_matrix maxdims parsed = Ret X ->
  exists v,
    py_getitem parsed "features" = Ret v /\
    shape X = [1; List.length (leaves v)] /\ data X = leaves v.
Proof.
  unfold input_matrix.
  destruct (py_getitem parsed "features") as [v |]; [| discriminate]. cbn [obind].
  unfold np_array.
  destruct (discover_shape v) as [s |] eqn:Hs; [| discriminate].
  destruct (List.length s <=? maxdims)%nat; [| discriminate]. cbn [obind].
  rewrite np_reshape_row. unfold size. cbn [shape data].
  rewrite (discover_shape_size v s Hs). intros [= <-].
  exists v. repeat split.
Qed.

(** X8: the calls a request makes the handler do are exactly these, in this
    order and once each.  With the classifier or the scaler unset: none.
    Otherwise [get_json]; then, if the body was parsed and line 52 built the
    input matrix, the scaler's [transform] on that matrix, which is a single
    row holding all the scalars of the [features] value; then, if
    [transform] returned, the classifier's [predict] on what [transform]
    returned.  No loader is called. *)
Theorem predict_call_discipline (maxdims : nat) (w : world) (req : request) :
  trace (snd (predict maxdims req w)) =
  trace w ++
  match model w, scaler w with
  | Some km, Some sc =>
      EGetJson ::
      match get_json req with
      | Raise _ => []
      | Ret parsed =>
          match input_matrix maxdims parsed with
          | Raise _ => []
          | Ret X =>
              ETransform X ::
              match Sklearn.transform sc X with
              | Raise _ => []
              | Ret Y => [EPredict Y]
              end
          end
      end
  | _, _ => []
  end /\
  (forall parsed X,
     get_json req = Ret parsed -> input_matrix maxdims parsed = Ret X ->
     exists v,
       py_getitem parsed "features" = Ret v /\
       shape X = [1; List.length (leaves v)] /\ data X = leaves v).
Proof.
  split; [| intros parsed X _ Hi; exact (input_matrix_is_one_row _ _ _ Hi)].
  unfold predict, bind, get_model, get_scaler.
  destruct (model w) as [km |]; [| cbn; rewrite app_nil_r; reflexivity].
  destruct (scaler w) as [sc |]; [| cbn; rewrite app_nil_r; reflexivity].
  unfold try_except. rewrite predict_body_run.
  destruct (get_json req) as [parsed | e]; [| reflexivity].
  destruct (input_matrix maxdims parsed) as [X | e]; [| reflexivity].
  destruct (Sklearn.transform sc X) as [Y | e].
  - cbv zeta. destruct (Keras.predict km Y) as [P | e];
      [destruct (let? c := threshold_class P in success_response c P) |];
      cbn [snd trace emit ret]; rewrite <- !app_assoc; reflexivity.
  - cbn [snd trace emit ret]. rewrite <- !app_assoc. reflexivity.
Qed.

Example predict_calls_on_wrong_width :
  trace (snd (predict 32 (Demo.post (Demo.features (PyList [PyFloat 3])))
                {| model := Some (Demo.model2 0.75); scaler := Some Demo.scaler2;
                   trace := [] |})) =
  [EGetJson; ETransform {| shape := [1; 1]; data := [PyFloat 3] |}].
Proof. reflexivity. Qed.



(** ** Serving many requests *)

(** The response depends on the world only through the two bindings. *)
Lemma predict_response_world (maxdims : nat) (w w' : world) (req : request) :
  model w' = model w -> scaler w' = scaler w ->
  fst (predict maxdims req w') = fst (predict maxdims req w).
Proof.
  intros Hm Hs. rewrite !predict_answer, Hm, Hs.
  destruct (model w) as [km |]; [| reflexivity].
  destruct (scaler w) as [sc |]; [| reflexivity].
  rewrite !predict_body_run.
  destruct (get_json req) as [parsed |]; [| reflexivity].
  destruct (input_matrix maxdims parsed) as [X |]; [| reflexivity].
  destruct (Sklearn.transform sc X) as [Y |]; [| reflexivity].
  cbv zeta. destruct (Keras.predict km Y); reflexivity.
Qed.

Lemma serve_keeps_globals (maxdims : nat) (reqs : list request) (w : world) :
  model (serve maxdims reqs w) = model w /\ scaler (serve maxdims reqs w) = scaler w.
Proof.
  revert w. induction reqs as [| req reqs IH]; intros w; [split; reflexivity |].
  unfold serve. cbn [fold_left]. fold (serve maxdims reqs (snd (predict maxdims req w))).
  destruct (IH (snd (predict maxdims req w))) as [Hm Hs].
  destruct (predict_keeps_globals maxdims req w) as [Hm' Hs'].
  split; congruence.
Qed.

(** X10: however many [/predict] requests were handled before, and whatever
    they carried, the next request gets the response it would have got
    first, and [/health] answers as it did at the start: requests leave no
    mark on the service beyond the record of the calls made. *)
Theorem serve_history_independent (maxdims : nat) (reqs : list request)
  (w : world) (req : request) :
  fst (predict maxdims req (serve maxdims reqs w)) = fst (predict maxdims req w) /\
  fst (health (serve maxdims reqs w)) = fst (health w) /\
  model (serve maxdims reqs w) = model w /\
  scaler (serve maxdims reqs w) = scaler w.
Proof.
  destruct (serve_keeps_globals maxdims reqs w) as [Hm Hs].
  split; [apply predict_response_world; assumption |].
  split; [| split; assumption].
  unfold health, bind, get_model, ret. cbn [fst]. rewrite Hm. reflexivity.
Qed.

(** ** The order on floats *)

Lemma SFltb_leb_trans (a b c : spec_float) :
  SFltb a b = true -> SFleb b c = true -> SFltb a c = true.
Proof.
  unfold SFltb, SFleb, SFcompare.
  destruct a as [sa | sa | | sa ma ea], b as [sb | sb | | sb mb eb],
           c as [sc | sc | | sc mc ec];
    try discriminate; try reflexivity;
    repeat match goal with s : bool |- _ => destruct s end;
    try discriminate; try reflexivity.
  all: change (Pos.compare_cont Eq) with Pos.compare.
  all: destruct (Z.compare_spec ea eb), (Z.compare_spec eb ec), (Z.compare_spec ea ec);
    try discriminate; try reflexivity; try lia; subst.
  all: try (destruct (Pos.compare_spec ma mb), (Pos.compare_spec mb mc),
              (Pos.compare_spec ma mc);
            cbn; try discriminate; try reflexivity; try lia).
Qed.

(** [a < b <= c] gives [a < c], for IEEE comparisons (no NaN can occur). *)
Lemma float_ltb_leb_trans (a b c : float) :
  (a <? b)%float = true -> (b <=? c)%float = true -> (a <? c)%float = true.
Proof. rewrite !ltb_spec, leb_spec. apply SFltb_leb_trans. Qed.

(** X11: thresholding is monotone: for classifier outputs of one row and one
    column, if [p <= q] then the class for [p] is at most the class for [q];
    a higher probability never turns a 1 into a 0. *)
Theorem threshold_is_monotone (p q : float) :
  (p <=? q)%float = true ->
  exists lp lq : Z,
    threshold_class {| shape := [1; 1]; data := [p] |} = Ret {| shape := []; data := [lp] |} /\
    threshold_class {| shape := [1; 1]; data := [q] |} = Ret {| shape := []; data := [lq] |} /\
    (lp <= lq)%Z.
Proof.
  intros Hle.
  exists (if (0.5 <? p)%float then 1%Z else 0%Z), (if (0.5 <? q)%float then 1%Z else 0%Z).
  split; [reflexivity | split; [reflexivity |]].
  destruct (0.5 <? p)%float eqn:Hp.
  - rewrite (float_ltb_leb_trans _ _ _ Hp Hle). lia.
  - destruct (0.5 <? q)%float; lia.
Qed.

Lemma threshold_is_monotone_witness :
  exists lp lq : Z,
    threshold_class {| shape := [1; 1]; data := [0.25%float] |} =
      Ret {| shape := []; data := [lp] |} /\
    threshold_class {| shape := [1; 1]; data := [0.75%float] |} =
      Ret {| shape := []; data := [lq] |} /\
    (lp <= lq)%Z.
Proof.
  apply (threshold_is_monotone 0.25 0.75). reflexivity.
Defined.

(** * Properties of the analysis *)

(** ** Running a method *)

Lemma eda_bind_logger {B} (lv : Eda.level) (msg : string) (k : unit -> Eda.E B)
  (st : Eda.state) :
  Eda.bind (Eda.logger lv msg) k st =
  k tt {| Eda.df := Eda.df st; Eda.log := Eda.log st ++ [Eda.ELog lv msg] |}.
Proof. reflexivity. Qed.

Lemma eda_bind_self_df {B} (attr : string) (k : Eda.DataFrame -> Eda.E B)
  (st : Eda.state) (frame : Eda.DataFrame) :
  Eda.df st = Some frame ->
  Eda.bind (Eda.self_df attr) k st = k frame st.
Proof.
  intros H. unfold Eda.self_df, Eda.bind at 1 2, Eda.get_df. rewrite H. reflexivity.
Qed.

Lemma eda_bind_ret {A B} (a : A) (k : A -> Eda.E B) (st : Eda.state) :
  Eda.bind (Eda.ret a) k st = k a st.
Proof. reflexivity. Qed.

Lemma eda_bind_assoc {A B C} (c : Eda.E A) (k : A -> Eda.E B) (k' : B -> Eda.E C)
  (st : Eda.state) :
  Eda.bind (Eda.bind c k) k' st = Eda.bind c (fun a => Eda.bind (k a) k') st.
Proof.
  unfold Eda.bind. destruct (c st) as [[a | s] st']; reflexivity.
Qed.

Lemma eda_lib (h : Eda.host) (ev : Eda.event) (st : Eda.state) :
  Eda.library_returns h ->
  Eda.lib h ev st = (Eda.Done tt, {| Eda.df := Eda.df st; Eda.log := Eda.log st ++ [ev] |}).
Proof. intros H. unfold Eda.lib. rewrite H. reflexivity. Qed.

Lemma eda_bind_lib (h : Eda.host) {B} (ev : Eda.event) (k : unit -> Eda.E B)
  (st : Eda.state) :
  Eda.library_returns h ->
  Eda.bind (Eda.lib h ev) k st =
  k tt {| Eda.df := Eda.df st; Eda.log := Eda.log st ++ [ev] |}.
Proof. intros H. unfold Eda.bind, Eda.lib. rewrite H. reflexivity. Qed.

Lemma saved_figures_app (l1 l2 : list Eda.event) :
  Eda.saved_figures (l1 ++ l2) = Eda.saved_figures l1 ++ Eda.saved_figures l2.
Proof.
  induction l1 as [| ev l1 IH]; [reflexivity |].
  destruct ev; cbn; rewrite ?IH; reflexivity.
Qed.

(** The log after the events [evs], one by one. *)
Lemma snoc_all (l evs : list Eda.event) :
  fold_left (fun acc ev => acc ++ [ev]) evs l = l ++ evs.
Proof.
  revert l. induction evs as [| ev evs IH]; intros l; cbn.
  - rewrite app_nil_r. reflexivity.
  - rewrite IH, <- app_assoc. reflexivity.
Qed.

(** A method run by computation: from the events it logs one by one to
    [completes]. *)
Lemma completes_by_run (c : Eda.E unit) (d : option Eda.DataFrame)
  (l evs : list Eda.event) (figs : list path) :
  c {| Eda.df := d; Eda.log := l |} =
    (Eda.Done tt,
     {| Eda.df := d; Eda.log := fold_left (fun acc ev => acc ++ [ev]) evs l |}) ->
  Eda.saved_figures evs = figs ->
  Eda.completes c {| Eda.df := d; Eda.log := l |} figs.
Proof.
  intros Hrun Hfigs. exists evs. split; [| exact Hfigs].
  rewrite Hrun, snoc_all. reflexivity.
Qed.

(** Two methods in a row save what the first saves, then what the second
    saves. *)
Lemma completes_seq (c1 c2 : Eda.E unit) (st : Eda.state) (f1 f2 : list path) :
  Eda.completes c1 st f1 ->
  (forall st', Eda.df st' = Eda.df st -> Eda.completes c2 st' f2) ->
  Eda.completes (Eda.bind c1 (fun _ => c2)) st (f1 ++ f2).
Proof.
  intros (evs1 & H1 & Hf1) H2.
  destruct (H2 {| Eda.df := Eda.df st; Eda.log := Eda.log st ++ evs1 |} eq_refl)
    as (evs2 & H2' & Hf2).
  exists (evs1 ++ evs2). split.
  - unfold Eda.bind. rewrite H1, H2'. cbn [Eda.df Eda.log]. rewrite app_assoc. reflexivity.
  - rewrite saved_figures_app, Hf1, Hf2. reflexivity.
Qed.

(** Makes the host and the state explicit, with the library that returns. *)
Ltac eda_open h st :=
  destruct h as [sf pe rc co pa lb];
  unfold Eda.library_returns in *; cbn [Eda.library] in *; subst lb;
  destruct st as [d l]; cbn [Eda.df Eda.log] in *; subst.

(** Closes [completes c st figs] by running [c]. *)
Ltac eda_run_from c d l :=
  let r := eval vm_compute in (Eda.log (snd (c {| Eda.df := d; Eda.log := [] |}))) in
  refine (completes_by_run c d l r _ _ _); vm_compute; reflexivity.

Ltac eda_by_run :=
  lazymatch goal with
  | |- Eda.completes ?c {| Eda.df := ?d; Eda.log := ?l |} _ => eda_run_from c d l
  | |- exists evs, ?c {| Eda.df := ?d; Eda.log := ?l |} = _ /\ _ => eda_run_from c d l
  end.

Lemma plot_limit_balance_violin_completes (h : Eda.host) (st : Eda.state) :
  Eda.library_returns h ->
  Eda.completes (Eda.plot_limit_balance_violin h) st
    [joinpath (Eda.OUTPUT_DIR h) "4_limit_balance_violin.png"].
Proof. intros Hlib. eda_open h st. eda_by_run. Qed.

Lemma plot_numerical_distributions_completes (h : Eda.host) (st : Eda.state) :
  Eda.library_returns h ->
  Eda.completes (Eda.plot_numerical_distributions h) st
    [joinpath (Eda.OUTPUT_DIR h) "6_numerical_distributions.png"].
Proof. intros Hlib. eda_open h st. eda_by_run. Qed.

Lemma plot_feature_correlation_ranking_completes (h : Eda.host) (st : Eda.state)
  (frame : Eda.DataFrame) :
  Eda.library_returns h -> Eda.df st = Some frame ->
  Eda.completes (Eda.plot_feature_correlation_ranking h) st
    [joinpath (Eda.OUTPUT_DIR h) "2_feature_importance_corr.png"].
Proof. intros Hlib Hdf. eda_open h st. eda_by_run. Qed.

Lemma plot_age_limit_interaction_completes (h : Eda.host) (st : Eda.state)
  (frame : Eda.DataFrame) :
  Eda.library_returns h -> Eda.df st = Some frame ->
  Eda.completes (Eda.plot_age_limit_interaction h) st
    [joinpath (Eda.OUTPUT_DIR h) "5_demographic_scatter.png"].
Proof. intros Hlib Hdf. eda_open h st. eda_by_run. Qed.

Lemma plot_correlation_heatmap_completes (h : Eda.host) (st : Eda.state)
  (frame : Eda.DataFrame) :
  Eda.library_returns h -> Eda.df st = Some frame ->
  Eda.completes (Eda.plot_correlation_heatmap h) st
    [joinpath (Eda.OUTPUT_DIR h) "8_correlation_heatmap.png"].
Proof. intros Hlib Hdf. eda_open h st. eda_by_run. Qed.

(** A loop of library calls that save nothing. *)
Lemma annotate_completes (h : Eda.host) {A} (xs : list A) (ev : Eda.event)
  (st : Eda.state) :
  Eda.library_returns h ->
  Eda.saved_figures [ev] = [] ->
  Eda.completes (Eda.for_each xs (fun _ => Eda.lib h ev)) st [].
Proof.
  intros Hlib Hev. revert st. induction xs as [| x xs IH]; intros st.
  - exists []. destruct st as [d l]. cbn. rewrite app_nil_r. split; reflexivity.
  - cbn [Eda.for_each].
    apply (completes_seq _ _ st [] []); [| intros st' _; apply IH].
    exists [ev]. split; [apply eda_lib; exact Hlib | exact Hev].
Qed.

Lemma annotate_and_save_completes (h : Eda.host) (st : Eda.state) :
  Eda.library_returns h ->
  Eda.completes (annotate_and_save h) st
    [joinpath (Eda.OUTPUT_DIR h) "1_target_distribution.png"].
Proof.
  intros Hlib. unfold annotate_and_save.
  apply (completes_seq _ _ _ [] _);
    [apply annotate_completes; [exact Hlib | reflexivity] |].
  intros st' _. clear st. eda_open h st'. eda_by_run.
Qed.

Lemma plot_target_distribution_completes (h : Eda.host) (st : Eda.state)
  (frame : Eda.DataFrame) :
  Eda.library_returns h -> Eda.df st = Some frame ->
  Eda.completes (Eda.plot_target_distribution h) st
    [joinpath (Eda.OUTPUT_DIR h) "1_target_distribution.png"].
Proof.
  intros Hlib Hdf.
  pose (pre := [Eda.ECall "plt.figure" []; Eda.ECall "sns.countplot" ["Label"];
                Eda.ECall "plt.title" ["Proporsi Nasabah Churn vs Non-Churn"];
                Eda.ECall "plt.xlabel" [EmptyString];
                Eda.ECall "plt.ylabel" ["Jumlah Nasabah"]]).
  destruct (annotate_and_save_completes h
              {| Eda.df := Eda.df st; Eda.log := Eda.log st ++ pre |} Hlib)
    as (evs & Hrun & Hfigs).
  exists (pre ++ evs). split.
  - rewrite app_assoc. cbn [Eda.df Eda.log] in Hrun. rewrite <- Hrun.
    rewrite <- (snoc_all (Eda.log st) pre).
    clear Hrun Hfigs evs. eda_open h st. reflexivity.
  - rewrite saved_figures_app, Hfigs. reflexivity.
Qed.

(** ** Column selection *)

Lemma prefix_iff (sub s : string) :
  String.prefix sub s = true <-> exists b, s = (sub ++ b)%string.
Proof.
  revert s. induction sub as [| a sub IH]; intros s; cbn.
  - destruct s; split; eauto.
  - destruct s as [| c s]; cbn.
    + split; [discriminate | intros [b Hb]; discriminate].
    + destruct (Ascii.ascii_dec a c) as [<- | Hne].
      * rewrite IH. split; intros [b Hb]; exists b; congruence.
      * split; [discriminate | intros [b Hb]; congruence].
Qed.

(** [sub in s] holds exactly when [s] is some text, then [sub], then some
    text. *)
Lemma str_contains_iff (sub s : string) :
  Eda.str_contains sub s = true <-> exists a b, s = (a ++ sub ++ b)%string.
Proof.
  induction s as [| c s IH]; cbn [Eda.str_contains]; rewrite orb_true_iff, prefix_iff.
  - split.
    + intros [[b Hb] | H]; [| discriminate]. exists EmptyString, b. exact Hb.
    + intros (a & b & H). left. destruct a; [exists b; exact H | discriminate].
  - rewrite IH. split.
    + intros [[b Hb] | (a & b & H)].
      * exists EmptyString, b. exact Hb.
      * exists (String c a), b. cbn. congruence.
    + intros (a & b & H). destruct a as [| c' a]; cbn in H.
      * left. exists b. exact H.
      * right. exists a, b. congruence.
Qed.

(** What is kept in order is determined by the list and the test. *)
Lemma kept_in_order_unique {A} (keep : A -> Prop) (l r1 r2 : list A) :
  Eda.kept_in_order keep l r1 -> Eda.kept_in_order keep l r2 -> r1 = r2.
Proof.
  intros H1. revert r2.
  induction H1 as [| x l r Hx _ IH | x l r Hx _ IH]; intros r2 H2;
    inversion H2; subst; try contradiction; [reflexivity | f_equal |]; apply IH; assumption.
Qed.

(** X12: the columns of an outlier plot are exactly the columns of the table
    whose label contains the pattern ([BILL_AMT] or [PAY_AMT]) somewhere, in
    the table's order: the selection is the list of the table's labels with
    those that do not contain the pattern struck out, so every label that
    contains it is there, as often and in the order the table has it, and no
    other list is. *)
Theorem columns_containing_spec (sub : string) (frame : Eda.DataFrame) :
  Eda.kept_in_order (Eda.contains sub) (Eda.columns frame)
    (Eda.columns_containing sub frame) /\
  (forall r, Eda.kept_in_order (Eda.contains sub) (Eda.columns frame) r ->
             r = Eda.columns_containing sub frame) /\
  (forall c, In c (Eda.columns_containing sub frame) <->
             In c (Eda.columns frame) /\ Eda.contains sub c).
Proof.
  assert (Hk : Eda.kept_in_order (Eda.contains sub) (Eda.columns frame)
                 (Eda.columns_containing sub frame)).
  { unfold Eda.columns_containing.
    induction (Eda.columns frame) as [| c cs IH]; cbn [filter]; [constructor |].
    destruct (Eda.str_contains sub c) eqn:Hc.
    - apply Eda.kept_yes; [apply str_contains_iff; exact Hc | exact IH].
    - apply Eda.kept_no; [| exact IH].
      intros Habs. apply str_contains_iff in Habs. congruence. }
  split; [exact Hk |]. split.
  - intros r Hr. exact (kept_in_order_unique _ _ _ _ Hr Hk).
  - intros c. unfold Eda.columns_containing, Eda.contains.
    rewrite filter_In, str_contains_iff. reflexivity.
Qed.

Example columns_containing_run :
  Eda.columns_containing "BILL_AMT"
    {| Eda.columns := ["LIMIT_BAL"; "BILL_AMT1"; "PAY_1"; "PAY_AMT1"; "BILL_AMT2"; "default"];
       Eda.nrows := 3 |} =
  ["BILL_AMT1"; "BILL_AMT2"].
Proof. vm_compute. reflexivity. Qed.

(** ** Plot 9 *)

Lemma nonempty_columns_containing (sub : string) (frame : Eda.DataFrame) :
  Eda.nonempty (Eda.columns_containing sub frame) =
  existsb (Eda.str_contains sub) (Eda.columns frame).
Proof.
  unfold Eda.columns_containing.
  induction (Eda.columns frame) as [| c cs IH]; [reflexivity |].
  cbn [filter existsb]. destruct (Eda.str_contains sub c); [reflexivity | exact IH].
Qed.

Lemma no_column_contains (sub : string) (frame : Eda.DataFrame) :
  (forall c, In c (Eda.columns frame) -> Eda.str_contains sub c = false) ->
  existsb (Eda.str_contains sub) (Eda.columns frame) = false.
Proof.
  intros H. induction (Eda.columns frame) as [| c cs IH]; [reflexivity |].
  cbn [existsb]. rewrite (H c (or_introl eq_refl)). apply IH.
  intros c' Hc'. apply H. right. exact Hc'.
Qed.

(** The two blocks of plot 9, by whether each has columns to draw. *)
Lemma plot_outlier_analysis_run (h : Eda.host) (d : option Eda.DataFrame)
  (l : list Eda.event) (frame : Eda.DataFrame) (bill pay : bool) :
  Eda.library_returns h ->
  d = Some frame ->
  Eda.nonempty (Eda.columns_containing "BILL_AMT" frame) = bill ->
  Eda.nonempty (Eda.columns_containing "PAY_AMT" frame) = pay ->
  Eda.plot_outlier_analysis h {| Eda.df := d; Eda.log := l |} =
  (Eda.Done tt,
   {| Eda.df := d;
      Eda.log := fold_left (fun acc ev => acc ++ [ev])
        ((if bill then
            [Eda.ECall "plt.figure" [];
             Eda.ECall "sns.boxplot" (Eda.columns_containing "BILL_AMT" frame);
             Eda.ECall "plt.title" ["Distribusi Outlier: Bill Amount"];
             Eda.ECall "plt.tight_layout" [];
             Eda.ESavefig (joinpath (Eda.OUTPUT_DIR h) "9_outlier_bill.png");
             Eda.ECall "plt.close" []]
          else []) ++
         (if pay then
            [Eda.ECall "plt.figure" [];
             Eda.ECall "sns.boxplot" (Eda.columns_containing "PAY_AMT" frame);
             Eda.ECall "plt.title" ["Distribusi Outlier: Payment Amount"];
             Eda.ECall "plt.tight_layout" [];
             Eda.ESavefig (joinpath (Eda.OUTPUT_DIR h) "9_outlier_pay.png");
             Eda.ECall "plt.close" []]
          else []) ++
         [Eda.ELog Eda.INFO "[Plot 9] Outlier analysis saved."]) l |}).
Proof.
  intros Hlib -> Hb Hp.
  destruct h as [sf pe rc co pa lb]; unfold Eda.library_returns in Hlib;
    cbn [Eda.library] in Hlib; subst lb.
  unfold Eda.plot_outlier_analysis.
  rewrite (eda_bind_self_df _ _ {| Eda.df := Some frame; Eda.log := l |} frame eq_refl).
  cbv zeta. rewrite Hb, Hp.
  destruct bill, pay; reflexivity.
Qed.

(** X13: on a table with no [BILL_AMT] and no [PAY_AMT] column, the outlier
    analysis draws nothing, calls no library and saves no file, and still
    returns normally after logging that the outlier analysis was saved. *)
Theorem outlier_analysis_without_columns (h : Eda.host) (st : Eda.state)
  (frame : Eda.DataFrame) :
  Eda.df st = Some frame ->
  (forall c, In c (Eda.columns frame) ->
     Eda.str_contains "BILL_AMT" c = false /\ Eda.str_contains "PAY_AMT" c = false) ->
  Eda.plot_outlier_analysis h st =
  (Eda.Done tt,
   {| Eda.df := Eda.df st;
      Eda.log := Eda.log st ++ [Eda.ELog Eda.INFO "[Plot 9] Outlier analysis saved."] |}).
Proof.
  intros Hdf Hcols. unfold Eda.plot_outlier_analysis.
  rewrite (eda_bind_self_df _ _ _ _ Hdf). cbv zeta.
  rewrite !nonempty_columns_containing.
  rewrite (no_column_contains "BILL_AMT" frame (fun c Hc => proj1 (Hcols c Hc))).
  rewrite (no_column_contains "PAY_AMT" frame (fun c Hc => proj2 (Hcols c Hc))).
  reflexivity.
Qed.

Lemma outlier_analysis_without_columns_witness :
  Eda.plot_outlier_analysis (eda_demo_host ["AGE"; "default"])
    {| Eda.df := Some {| Eda.columns := ["AGE"; "default"; "Label"]; Eda.nrows := 3 |};
       Eda.log := [] |} =
  (Eda.Done tt,
   {| Eda.df := Some {| Eda.columns := ["AGE"; "default"; "Label"]; Eda.nrows := 3 |};
      Eda.log := [Eda.ELog Eda.INFO "[Plot 9] Outlier analysis saved."] |}).
Proof.
  refine (outlier_analysis_without_columns (eda_demo_host ["AGE"; "default"])
            {| Eda.df := Some {| Eda.columns := ["AGE"; "default"; "Label"]; Eda.nrows := 3 |};
               Eda.log := [] |}
            {| Eda.columns := ["AGE"; "default"; "Label"]; Eda.nrows := 3 |} eq_refl _).
  intros c [<- | [<- | [<- | []]]]; split; vm_compute; reflexivity.
Defined.

(** What plot 9 saves. *)
Lemma plot_outlier_analysis_completes (h : Eda.host) (st : Eda.state)
  (frame : Eda.DataFrame) :
  Eda.library_returns h -> Eda.df st = Some frame ->
  Eda.completes (Eda.plot_outlier_analysis h) st
    ((if existsb (Eda.str_contains "BILL_AMT") (Eda.columns frame)
      then [joinpath (Eda.OUTPUT_DIR h) "9_outlier_bill.png"] else []) ++
     (if existsb (Eda.str_contains "PAY_AMT") (Eda.columns frame)
      then [joinpath (Eda.OUTPUT_DIR h) "9_outlier_pay.png"] else [])).
Proof.
  intros Hlib Hdf. destruct st as [d l]. cbn [Eda.df] in Hdf.
  rewrite <- !nonempty_columns_containing.
  eapply completes_by_run.
  - apply (plot_outlier_analysis_run h d l frame _ _ Hlib Hdf eq_refl eq_refl).
  - destruct (Eda.nonempty (Eda.columns_containing "BILL_AMT" frame)),
             (Eda.nonempty (Eda.columns_containing "PAY_AMT" frame)); reflexivity.
Qed.

(** X16: when the library calls return, the outlier analysis saves
    [9_outlier_bill.png] exactly when some column label contains [BILL_AMT]
    and [9_outlier_pay.png] exactly when some label contains [PAY_AMT], in
    this order and nothing else, and leaves the table as it is. *)
Theorem outlier_analysis_saves (h : Eda.host) (st : Eda.state) (frame : Eda.DataFrame) :
  Eda.library_returns h -> Eda.df st = Some frame ->
  Eda.completes (Eda.plot_outlier_analysis h) st
    ((if existsb (Eda.str_contains "BILL_AMT") (Eda.columns frame)
      then [joinpath (Eda.OUTPUT_DIR h) "9_outlier_bill.png"] else []) ++
     (if existsb (Eda.str_contains "PAY_AMT") (Eda.columns frame)
      then [joinpath (Eda.OUTPUT_DIR h) "9_outlier_pay.png"] else [])).
Proof. apply plot_outlier_analysis_completes. Qed.

Lemma outlier_analysis_saves_witness :
  Eda.completes
    (Eda.plot_outlier_analysis (eda_demo_host ["BILL_AMT1"; "default"]))
    {| Eda.df := Some {| Eda.columns := ["BILL_AMT1"; "default"]; Eda.nrows := 3 |};
       Eda.log := [] |}
    ((if existsb (Eda.str_contains "BILL_AMT") ["BILL_AMT1"; "default"]
      then [joinpath (Eda.OUTPUT_DIR (eda_demo_host ["BILL_AMT1"; "default"]))
              "9_outlier_bill.png"] else []) ++
     (if existsb (Eda.str_contains "PAY_AMT") ["BILL_AMT1"; "default"]
      then [joinpath (Eda.OUTPUT_DIR (eda_demo_host ["BILL_AMT1"; "default"]))
              "9_outlier_pay.png"] else [])).
Proof.
  exact (outlier_analysis_saves (eda_demo_host ["BILL_AMT1"; "default"])
           {| Eda.df := Some {| Eda.columns := ["BILL_AMT1"; "default"]; Eda.nrows := 3 |};
              Eda.log := [] |}
           {| Eda.columns := ["BILL_AMT1"; "default"]; Eda.nrows := 3 |} eq_refl eq_refl).
Defined.

(** ** Guards on the columns *)

Lemma has_column_iff (frame : Eda.DataFrame) (c : string) :
  Eda.has_column frame c = true <-> In c (Eda.columns frame).
Proof.
  unfold Eda.has_column. rewrite existsb_exists. split.
  - intros (x & Hx & Heq). apply String.eqb_eq in Heq. subst x. exact Hx.
  - intros H. exists c. split; [exact H | apply String.eqb_refl].
Qed.

Lemma some_column_missing (frame : Eda.DataFrame) (cols : list string) :
  (exists c, In c cols /\ ~ In c (Eda.columns frame)) ->
  forallb (Eda.has_column frame) cols = false.
Proof.
  intros (c & Hc & Hmiss).
  destruct (forallb (Eda.has_column frame) cols) eqn:Hall; [| reflexivity].
  rewrite forallb_forall in Hall. specialize (Hall c Hc).
  apply has_column_iff in Hall. contradiction.
Qed.

(** X14: when one of the six columns [PAY_1] ... [PAY_6] is missing from the
    loaded table, the payment trend plot is skipped: the method only logs a
    warning and returns normally, with no library call, no figure and no
    exception, so the steps after it still run. *)
Theorem payment_trend_skipped_when_incomplete (h : Eda.host) (st : Eda.state)
  (frame : Eda.DataFrame) :
  Eda.df st = Some frame ->
  (exists c, In c Eda.pay_cols /\ ~ In c (Eda.columns frame)) ->
  Eda.plot_payment_trend h st =
  (Eda.Done tt,
   {| Eda.df := Eda.df st;
      Eda.log := Eda.log st ++
        [Eda.ELog Eda.WARNING "Kolom PAY_1 - PAY_6 tidak lengkap. Melewati analisis tren."] |}).
Proof.
  intros Hdf Hmiss. unfold Eda.plot_payment_trend.
  rewrite (eda_bind_self_df _ _ _ _ Hdf), (some_column_missing _ _ Hmiss).
  reflexivity.
Qed.

Lemma payment_trend_skipped_when_incomplete_witness :
  Eda.plot_payment_trend (eda_demo_host ["PAY_1"; "PAY_2"; "default"])
    {| Eda.df := Some {| Eda.columns := ["PAY_1"; "PAY_2"; "default"]; Eda.nrows := 3 |};
       Eda.log := [] |} =
  (Eda.Done tt,
   {| Eda.df := Some {| Eda.columns := ["PAY_1"; "PAY_2"; "default"]; Eda.nrows := 3 |};
      Eda.log :=
        [Eda.ELog Eda.WARNING "Kolom PAY_1 - PAY_6 tidak lengkap. Melewati analisis tren."] |}).
Proof.
  refine (payment_trend_skipped_when_incomplete
            (eda_demo_host ["PAY_1"; "PAY_2"; "default"])
            {| Eda.df := Some {| Eda.columns := ["PAY_1"; "PAY_2"; "default"]; Eda.nrows := 3 |};
               Eda.log := [] |}
            {| Eda.columns := ["PAY_1"; "PAY_2"; "default"]; Eda.nrows := 3 |} eq_refl _).
  exists "PAY_6". split; [left; reflexivity |].
  intros [H | [H | [H | []]]]; discriminate.
Defined.

(** X15: the same for the categorical plot: when [SEX], [EDUCATION] or
    [MARRIAGE] is missing, the method only logs a warning and returns
    normally, with no library call and no figure. *)
Theorem categorical_plot_skipped_when_incomplete (h : Eda.host) (st : Eda.state)
  (frame : Eda.DataFrame) :
  Eda.df st = Some frame ->
  (exists c, In c Eda.categorical_cols /\ ~ In c (Eda.columns frame)) ->
  Eda.plot_categorical_distributions h st =
  (Eda.Done tt,
   {| Eda.df := Eda.df st;
      Eda.log := Eda.log st ++
        [Eda.ELog Eda.WARNING
           "Kolom kategorikal tidak lengkap. Melewati analisis kategorikal."] |}).
Proof.
  intros Hdf Hmiss. unfold Eda.plot_categorical_distributions.
  rewrite (eda_bind_self_df _ _ _ _ Hdf), (some_column_missing _ _ Hmiss).
  reflexivity.
Qed.

Lemma categorical_plot_skipped_when_incomplete_witness :
  Eda.plot_categorical_distributions (eda_demo_host ["SEX"; "default"])
    {| Eda.df := Some {| Eda.columns := ["SEX"; "default"]; Eda.nrows := 3 |};
       Eda.log := [] |} =
  (Eda.Done tt,
   {| Eda.df := Some {| Eda.columns := ["SEX"; "default"]; Eda.nrows := 3 |};
      Eda.log :=
        [Eda.ELog Eda.WARNING
           "Kolom kategorikal tidak lengkap. Melewati analisis kategorikal."] |}).
Proof.
  refine (categorical_plot_skipped_when_incomplete (eda_demo_host ["SEX"; "default"])
            {| Eda.df := Some {| Eda.columns := ["SEX"; "default"]; Eda.nrows := 3 |};
               Eda.log := [] |}
            {| Eda.columns := ["SEX"; "default"]; Eda.nrows := 3 |} eq_refl _).
  exists "MARRIAGE". split; [right; right; left; reflexivity |].
  intros [H | [H | []]]; discriminate.
Defined.

Lemma plot_payment_trend_completes (h : Eda.host) (st : Eda.state)
  (frame : Eda.DataFrame) :
  Eda.library_returns h -> Eda.df st = Some frame ->
  Eda.completes (Eda.plot_payment_trend h) st
    (if forallb (Eda.has_column frame) Eda.pay_cols
     then [joinpath (Eda.OUTPUT_DIR h) "3_payment_trend_analysis.png"]
     else []).
Proof.
  intros Hlib Hdf. eda_open h st. unfold Eda.plot_payment_trend, Eda.completes.
  rewrite (eda_bind_self_df _ _ {| Eda.df := Some frame; Eda.log := l |} frame eq_refl).
  destruct (forallb (Eda.has_column frame) Eda.pay_cols); cbn [negb]; eda_by_run.
Qed.

Lemma plot_categorical_distributions_completes (h : Eda.host) (st : Eda.state)
  (frame : Eda.DataFrame) :
  Eda.library_returns h -> Eda.df st = Some frame ->
  Eda.completes (Eda.plot_categorical_distributions h) st
    (if forallb (Eda.has_column frame) Eda.categorical_cols
     then [joinpath (Eda.OUTPUT_DIR h) "7_categorical_distributions.png"]
     else []).
Proof.
  intros Hlib Hdf. eda_open h st. unfold Eda.plot_categorical_distributions, Eda.completes.
  rewrite (eda_bind_self_df _ _ {| Eda.df := Some frame; Eda.log := l |} frame eq_refl).
  destruct (forallb (Eda.has_column frame) Eda.categorical_cols); cbn [negb]; eda_by_run.
Qed.

(** ** Loading the dataset *)

Lemma app_two {A} (l : list A) (a b : A) : (l ++ [a]) ++ [b] = l ++ [a; b].
Proof. rewrite <- app_assoc. reflexivity. Qed.

Lemma app_three {A} (l : list A) (a b c : A) :
  ((l ++ [a]) ++ [b]) ++ [c] = l ++ [a; b; c].
Proof. rewrite <- !app_assoc. reflexivity. Qed.

(** X17: when the dataset file does not exist, [load_data] logs one critical
    line naming the path and ends the process with exit status 1; nothing is
    read and [self.df] is not touched. *)
Theorem load_data_exits_without_dataset (h : Eda.host) (st : Eda.state) :
  Eda.path_exists h (Eda.INPUT_DATA_PATH h) = false ->
  Eda.load_data h st =
  (Eda.Stop (Eda.SystemExit 1),
   {| Eda.df := Eda.df st;
      Eda.log := Eda.log st ++
        [Eda.ELog Eda.CRITICAL
           ("Dataset tidak ditemukan di " ++ str_path (Eda.INPUT_DATA_PATH h))] |}).
Proof.
  intros Hex. unfold Eda.load_data. rewrite Hex. reflexivity.
Qed.

Lemma load_data_exits_without_dataset_witness :
  Eda.load_data eda_host_without_dataset Eda.fresh =
  (Eda.Stop (Eda.SystemExit 1),
   {| Eda.df := Eda.df Eda.fresh;
      Eda.log := Eda.log Eda.fresh ++
        [Eda.ELog Eda.CRITICAL
           ("Dataset tidak ditemukan di " ++
            str_path (Eda.INPUT_DATA_PATH eda_host_without_dataset))] |}).
Proof.
  exact (load_data_exits_without_dataset eda_host_without_dataset Eda.fresh eq_refl).
Defined.

Lemma has_column_false (frame : Eda.DataFrame) (c : string) :
  ~ In c (Eda.columns frame) -> Eda.has_column frame c = false.
Proof.
  intros Hmiss. destruct (Eda.has_column frame c) eqn:Hc; [| reflexivity].
  apply has_column_iff in Hc. contradiction.
Qed.

(** X18: when the file is read but has no [default] column, the [KeyError]
    is logged as an error with its message (the quoted label) and raised
    again; by then [self.df] is already bound to the table as read, without
    the [Label] column. *)
Theorem load_data_without_default_column (h : Eda.host) (st : Eda.state)
  (frame : Eda.DataFrame) :
  Eda.path_exists h (Eda.INPUT_DATA_PATH h) = true ->
  Eda.read_csv h (Eda.INPUT_DATA_PATH h) = Ret frame ->
  ~ In "default" (Eda.columns frame) ->
  Eda.load_data h st =
  (Eda.Stop (Eda.Exc (KeyError "default")),
   {| Eda.df := Some frame;
      Eda.log := Eda.log st ++
        [Eda.EReadCsv (Eda.INPUT_DATA_PATH h);
         Eda.ELog Eda.ERROR "Error loading data: 'default'"] |}).
Proof.
  intros Hex Hread Hmiss. apply has_column_false in Hmiss.
  rewrite <- app_two.
  unfold Eda.load_data. rewrite Hex. cbn [negb]. rewrite eda_bind_ret.
  unfold Eda.try_except, Eda.bind at 1, Eda.emit. rewrite Hread.
  unfold Eda.bind at 1 2, Eda.set_df. cbn [Eda.df Eda.log]. rewrite Hmiss.
  reflexivity.
Qed.

Lemma load_data_without_default_column_witness :
  Eda.load_data (eda_demo_host ["AGE"; "LIMIT_BAL"]) Eda.fresh =
  (Eda.Stop (Eda.Exc (KeyError "default")),
   {| Eda.df := Some {| Eda.columns := ["AGE"; "LIMIT_BAL"]; Eda.nrows := 3 |};
      Eda.log := Eda.log Eda.fresh ++
        [Eda.EReadCsv (Eda.INPUT_DATA_PATH (eda_demo_host ["AGE"; "LIMIT_BAL"]));
         Eda.ELog Eda.ERROR "Error loading data: 'default'"] |}).
Proof.
  refine (load_data_without_default_column (eda_demo_host ["AGE"; "LIMIT_BAL"]) Eda.fresh
            {| Eda.columns := ["AGE"; "LIMIT_BAL"]; Eda.nrows := 3 |} eq_refl eq_refl _).
  intros [H | [H | []]]; discriminate.
Defined.

Lemma set_column_has (frame : Eda.DataFrame) (name : string) :
  In name (Eda.columns (Eda.set_column frame name)).
Proof.
  unfold Eda.set_column. destruct (Eda.has_column frame name) eqn:Hc.
  - apply has_column_iff. exact Hc.
  - cbn [Eda.columns]. apply in_or_app. right. left. reflexivity.
Qed.

Lemma load_data_run (h : Eda.host) (st : Eda.state) (frame : Eda.DataFrame) :
  Eda.library_returns h ->
  Eda.path_exists h (Eda.INPUT_DATA_PATH h) = true ->
  Eda.read_csv h (Eda.INPUT_DATA_PATH h) = Ret frame ->
  In "default" (Eda.columns frame) ->
  Eda.load_data h st =
  (Eda.Done tt,
   {| Eda.df := Some (Eda.set_column frame "Label");
      Eda.log := Eda.log st ++
        [Eda.EReadCsv (Eda.INPUT_DATA_PATH h);
         Eda.ECall "Series.map" ["default"];
         Eda.ELog Eda.INFO
           ("Data dimuat: " ++ Eda.str_shape (Eda.set_column frame "Label"))] |}).
Proof.
  intros Hlib Hex Hread Hcol. apply has_column_iff in Hcol.
  rewrite <- app_three.
  unfold Eda.load_data. rewrite Hex. cbn [negb]. rewrite eda_bind_ret.
  unfold Eda.try_except, Eda.bind at 1, Eda.emit. rewrite Hread.
  unfold Eda.bind at 1 2, Eda.set_df. cbn [Eda.df Eda.log]. rewrite Hcol.
  unfold Eda.ret. cbv beta iota. rewrite (eda_bind_lib h _ _ _ Hlib).
  reflexivity.
Qed.

(** X19: when the file is read, has a [default] column and the mapping
    returns, [load_data] returns with [self.df] bound to the table as read
    plus the column [Label]: the row count is unchanged, every column read is
    kept in place (a new [Label] goes last), and the shape logged is the
    shape of that table. *)
Theorem load_data_adds_label (h : Eda.host) (st : Eda.state) (frame : Eda.DataFrame) :
  Eda.library_returns h ->
  Eda.path_exists h (Eda.INPUT_DATA_PATH h) = true ->
  Eda.read_csv h (Eda.INPUT_DATA_PATH h) = Ret frame ->
  In "default" (Eda.columns frame) ->
  exists loaded,
    Eda.load_data h st =
    (Eda.Done tt,
     {| Eda.df := Some loaded;
        Eda.log := Eda.log st ++
          [Eda.EReadCsv (Eda.INPUT_DATA_PATH h);
           Eda.ECall "Series.map" ["default"];
           Eda.ELog Eda.INFO ("Data dimuat: " ++ Eda.str_shape loaded)] |}) /\
    In "Label" (Eda.columns loaded) /\
    Eda.nrows loaded = Eda.nrows frame /\
    (Eda.columns loaded = Eda.columns frame \/
     Eda.columns loaded = Eda.columns frame ++ ["Label"]).
Proof.
  intros Hlib Hex Hread Hcol. exists (Eda.set_column frame "Label").
  split; [exact (load_data_run h st frame Hlib Hex Hread Hcol) |].
  split; [apply set_column_has |].
  unfold Eda.set_column. destruct (Eda.has_column frame "Label"); cbn [Eda.nrows Eda.columns]; auto.
Qed.

Lemma load_data_adds_label_witness :
  exists loaded,
    Eda.load_data (eda_demo_host ["AGE"; "default"]) Eda.fresh =
    (Eda.Done tt,
     {| Eda.df := Some loaded;
        Eda.log := Eda.log Eda.fresh ++
          [Eda.EReadCsv (Eda.INPUT_DATA_PATH (eda_demo_host ["AGE"; "default"]));
           Eda.ECall "Series.map" ["default"];
           Eda.ELog Eda.INFO ("Data dimuat: " ++ Eda.str_shape loaded)] |}) /\
    In "Label" (Eda.columns loaded) /\
    Eda.nrows loaded = Eda.nrows {| Eda.columns := ["AGE"; "default"]; Eda.nrows := 3 |} /\
    (Eda.columns loaded = Eda.columns {| Eda.columns := ["AGE"; "default"]; Eda.nrows := 3 |} \/
     Eda.columns loaded =
       Eda.columns {| Eda.columns := ["AGE"; "default"]; Eda.nrows := 3 |} ++ ["Label"]).
Proof.
  refine (load_data_adds_label (eda_demo_host ["AGE"; "default"]) Eda.fresh
            {| Eda.columns := ["AGE"; "default"]; Eda.nrows := 3 |} eq_refl eq_refl eq_refl _).
  right. left. reflexivity.
Defined.

Example load_data_logs_shape :
  Eda.log (snd (Eda.load_data (eda_demo_host ["AGE"; "default"]) Eda.fresh)) =
  [Eda.EReadCsv ["srv"; "app"; "Eksperimen"; "churn_preprocessing"; "clean_data.csv"];
   Eda.ECall "Series.map" ["default"];
   Eda.ELog Eda.INFO "Data dimuat: (3, 3)"].
Proof. vm_compute. reflexivity. Qed.

(** X20: when reading the file raises, the exception is logged as an error
    with its message and raised again unchanged, and [self.df] stays as it
    was. *)
Theorem load_data_reraises_read_error (h : Eda.host) (st : Eda.state) (e : exn) :
  Eda.path_exists h (Eda.INPUT_DATA_PATH h) = true ->
  Eda.read_csv h (Eda.INPUT_DATA_PATH h) = Raise e ->
  Eda.load_data h st =
  (Eda.Stop (Eda.Exc e),
   {| Eda.df := Eda.df st;
      Eda.log := Eda.log st ++
        [Eda.EReadCsv (Eda.INPUT_DATA_PATH h);
         Eda.ELog Eda.ERROR ("Error loading data: " ++ str_exn e)] |}).
Proof.
  intros Hex Hread. rewrite <- app_two.
  unfold Eda.load_data. rewrite Hex. cbn [negb]. rewrite eda_bind_ret.
  unfold Eda.try_except, Eda.bind at 1, Eda.emit. rewrite Hread.
  reflexivity.
Qed.

Lemma load_data_reraises_read_error_witness :
  Eda.load_data eda_host_unreadable Eda.fresh =
  (Eda.Stop (Eda.Exc (OtherError "EmptyDataError" "No columns to parse from file")),
   {| Eda.df := Eda.df Eda.fresh;
      Eda.log := Eda.log Eda.fresh ++
        [Eda.EReadCsv (Eda.INPUT_DATA_PATH eda_host_unreadable);
         Eda.ELog Eda.ERROR
           ("Error loading data: " ++
            str_exn (OtherError "EmptyDataError" "No columns to parse from file"))] |}).
Proof.
  exact (load_data_reraises_read_error eda_host_unreadable Eda.fresh
           (OtherError "EmptyDataError" "No columns to parse from file") eq_refl eq_refl).
Defined.

(** ** The statistics file *)

Lemma written_texts_app (l1 l2 : list Eda.event) :
  Eda.written_texts (l1 ++ l2) = Eda.written_texts l1 ++ Eda.written_texts l2.
Proof.
  induction l1 as [| ev l1 IH]; [reflexivity |].
  destruct ev; cbn [Eda.written_texts app]; rewrite ?IH; reflexivity.
Qed.

Lemma eda_bind_done {A B} (c : Eda.E A) (k : A -> Eda.E B) (st st' : Eda.state) (a : A) :
  c st = (Eda.Done a, st') -> Eda.bind c k st = k a st'.
Proof. intros H. unfold Eda.bind. rewrite H. reflexivity. Qed.

(** The loop over the categorical columns writes a header for each one the
    table has, in the order of the list. *)
Lemma value_counts_loop (h : Eda.host) (frame : Eda.DataFrame) (cols : list string)
  (st : Eda.state) :
  Eda.library_returns h -> Eda.df st = Some frame ->
  exists evs,
    Eda.for_each cols
      (fun col =>
         Eda.bind (Eda.self_df "columns")
           (fun fr =>
              if Eda.has_column fr col
              then Eda.bind (Eda.lib h (Eda.EWrite (section_header col)))
                     (fun _ => Eda.lib h (Eda.EWriteOf
                                 ("self.df[" ++ col ++ "].value_counts().to_string()")))
              else Eda.ret tt)) st =
    (Eda.Done tt, {| Eda.df := Eda.df st; Eda.log := Eda.log st ++ evs |}) /\
    Eda.written_texts evs = map section_header (filter (Eda.has_column frame) cols) /\
    Eda.saved_figures evs = [].
Proof.
  intros Hlib. revert st. induction cols as [| col cols IH]; intros st Hdf.
  - exists []. destruct st as [d l]. cbn [Eda.for_each filter map Eda.df Eda.log].
    rewrite app_nil_r. repeat split.
  - cbn [Eda.for_each filter].
    rewrite eda_bind_assoc, (eda_bind_self_df _ _ _ frame Hdf).
    destruct (Eda.has_column frame col).
    + rewrite eda_bind_assoc, !eda_bind_lib by exact Hlib.
      cbn [Eda.df Eda.log].
      destruct (IH {| Eda.df := Eda.df st;
                      Eda.log := (Eda.log st ++ [Eda.EWrite (section_header col)]) ++
                                 [Eda.EWriteOf ("self.df[" ++ col ++ "].value_counts().to_string()")] |}
                  Hdf) as (evs & Hrun & Hw & Hs).
      rewrite Hrun. cbn [Eda.df Eda.log].
      exists ([Eda.EWrite (section_header col);
               Eda.EWriteOf ("self.df[" ++ col ++ "].value_counts().to_string()")] ++ evs).
      split; [rewrite <- !app_assoc; reflexivity |].
      split; [cbn [Eda.written_texts app map]; rewrite Hw; reflexivity
             | cbn [Eda.saved_figures app]; exact Hs].
    + rewrite eda_bind_ret. exact (IH st Hdf).
Qed.

(** What [save_descriptive_stats] does when nothing raises. *)
Lemma save_descriptive_stats_run (h : Eda.host) (st : Eda.state)
  (frame : Eda.DataFrame) :
  Eda.library_returns h -> Eda.df st = Some frame ->
  exists evs,
    Eda.save_descriptive_stats h st =
    (Eda.Done tt, {| Eda.df := Eda.df st; Eda.log := Eda.log st ++ evs |}) /\
    hd_error evs = Some (Eda.EOpen (joinpath (Eda.OUTPUT_DIR h) "0_descriptive_stats.txt")) /\
    Eda.written_texts evs =
      [("=== DATASET OVERVIEW (INFO) ===" ++ Eda.nl)%string;
       (Eda.nl ++ Eda.nl ++ "=== MISSING VALUES (ISNA) ===" ++ Eda.nl)%string;
       (Eda.nl ++ Eda.nl ++ "=== NUMERICAL SUMMARY (DESCRIBE) ===" ++ Eda.nl)%string;
       (Eda.nl ++ Eda.nl ++ "=== VALUE COUNTS (CATEGORICAL) ===" ++ Eda.nl)%string] ++
      map section_header (filter (Eda.has_column frame) Eda.cat_cols) ++
      [(Eda.nl ++ Eda.nl ++ "=== CORRELATION MATRIX (NUMERICAL) ===" ++ Eda.nl)%string] /\
    Eda.saved_figures evs = [].
Proof.
  intros Hlib Hdf.
  destruct h as [sf pe rc co pa lb]; unfold Eda.library_returns in Hlib;
    cbn [Eda.library] in Hlib; subst lb.
  set (h := {| Eda.script_file := sf; Eda.path_exists := pe; Eda.read_csv := rc;
               Eda.correlations := co; Eda.patches := pa;
               Eda.library := fun _ _ => Ret tt |}).
  assert (Hlib : Eda.library_returns h) by reflexivity.
  destruct st as [d l]. cbn [Eda.df Eda.log] in *. subst d.
  pose (pre :=
    [Eda.EOpen (joinpath (Eda.OUTPUT_DIR h) "0_descriptive_stats.txt");
     Eda.EWrite ("=== DATASET OVERVIEW (INFO) ===" ++ Eda.nl);
     Eda.EWriteOf "self.df.info()";
     Eda.EWrite (Eda.nl ++ Eda.nl ++ "=== MISSING VALUES (ISNA) ===" ++ Eda.nl);
     Eda.EWriteOf "self.df.isna().sum().to_string()";
     Eda.EWrite (Eda.nl ++ Eda.nl ++ "=== NUMERICAL SUMMARY (DESCRIBE) ===" ++ Eda.nl);
     Eda.EWriteOf "self.df.describe().to_string()";
     Eda.EWrite (Eda.nl ++ Eda.nl ++ "=== VALUE COUNTS (CATEGORICAL) ===" ++ Eda.nl)]).
  assert (Hpre :
    Eda.save_descriptive_stats h {| Eda.df := Some frame; Eda.log := l |} =
    Eda.bind (write_value_counts h) (fun _ => write_correlations h)
      {| Eda.df := Some frame;
         Eda.log := fold_left (fun acc ev => acc ++ [ev]) pre l |}) by reflexivity.
  rewrite Hpre, snoc_all. clear Hpre.
  destruct (value_counts_loop h frame Eda.cat_cols
              {| Eda.df := Some frame; Eda.log := l ++ pre |} Hlib eq_refl)
    as (evs1 & Hrun1 & Hw1 & Hs1).
  unfold section_header in Hrun1.
  rewrite (eda_bind_done (write_value_counts h) _ _ _ _ Hrun1).
  cbn [Eda.df Eda.log].
  pose (post :=
    [Eda.EWrite (Eda.nl ++ Eda.nl ++ "=== CORRELATION MATRIX (NUMERICAL) ===" ++ Eda.nl);
     Eda.ECall "df.select_dtypes" ["number"];
     Eda.EWriteOf "numeric_df.corr().to_string()";
     Eda.ELog Eda.INFO "Statistik deskriptif tersimpan."]).
  exists (pre ++ evs1 ++ post). split; [| split; [| split]].
  - rewrite !app_assoc. rewrite <- (snoc_all ((l ++ pre) ++ evs1) post). reflexivity.
  - reflexivity.
  - rewrite !written_texts_app, Hw1. reflexivity.
  - rewrite !saved_figures_app, Hs1. reflexivity.
Qed.

(** X21: with a table loaded and the library calls returning,
    [save_descriptive_stats] opens [0_descriptive_stats.txt] in the output
    folder and writes the five section titles in their fixed order; between
    the fourth and the fifth it writes one [--- col ---] header for each of
    [SEX], [EDUCATION], [MARRIAGE], [Label], [default] that the table has, in
    this order, and none for the others.  It saves no figure. *)
Theorem descriptive_stats_sections (h : Eda.host) (st : Eda.state)
  (frame : Eda.DataFrame) :
  Eda.library_returns h -> Eda.df st = Some frame ->
  exists evs,
    Eda.save_descriptive_stats h st =
    (Eda.Done tt, {| Eda.df := Eda.df st; Eda.log := Eda.log st ++ evs |}) /\
    hd_error evs = Some (Eda.EOpen (joinpath (Eda.OUTPUT_DIR h) "0_descriptive_stats.txt")) /\
    Eda.written_texts evs =
      [("=== DATASET OVERVIEW (INFO) ===" ++ Eda.nl)%string;
       (Eda.nl ++ Eda.nl ++ "=== MISSING VALUES (ISNA) ===" ++ Eda.nl)%string;
       (Eda.nl ++ Eda.nl ++ "=== NUMERICAL SUMMARY (DESCRIBE) ===" ++ Eda.nl)%string;
       (Eda.nl ++ Eda.nl ++ "=== VALUE COUNTS (CATEGORICAL) ===" ++ Eda.nl)%string] ++
      map section_header (filter (Eda.has_column frame) Eda.cat_cols) ++
      [(Eda.nl ++ Eda.nl ++ "=== CORRELATION MATRIX (NUMERICAL) ===" ++ Eda.nl)%string] /\
    Eda.saved_figures evs = [].
Proof. apply save_descriptive_stats_run. Qed.

Lemma descriptive_stats_sections_witness :
  Eda.saved_figures
    (Eda.log (snd (Eda.save_descriptive_stats (eda_demo_host ["SEX"; "default"])
                     {| Eda.df := Some {| Eda.columns := ["SEX"; "default"; "Label"];
                                          Eda.nrows := 3 |};
                        Eda.log := [] |}))) = [].
Proof.
  destruct (descriptive_stats_sections (eda_demo_host ["SEX"; "default"])
              {| Eda.df := Some {| Eda.columns := ["SEX"; "default"; "Label"]; Eda.nrows := 3 |};
                 Eda.log := [] |}
              {| Eda.columns := ["SEX"; "default"; "Label"]; Eda.nrows := 3 |}
              eq_refl eq_refl) as (evs & Hrun & _ & _ & Hs).
  rewrite Hrun. exact Hs.
Defined.

(** ** The whole run *)

(** X22: started where the dataset file is missing, the script creates the
    output folder, sets the plot theme, logs its start and the missing
    dataset, and ends with exit status 1: no table is loaded, no file is
    opened and no figure is saved. *)
Theorem main_stops_without_dataset (h : Eda.host) :
  Eda.library_returns h ->
  Eda.path_exists h (Eda.INPUT_DATA_PATH h) = false ->
  Eda.main h Eda.fresh =
  (Eda.Stop (Eda.SystemExit 1),
   {| Eda.df := None;
      Eda.log :=
        [Eda.ECall "Path.mkdir" [str_path (Eda.OUTPUT_DIR h)];
         Eda.ECall "sns.set_theme" ["whitegrid"];
         Eda.ELog Eda.INFO
           ("Advanced EDA initialized. Output path: " ++ str_path (Eda.OUTPUT_DIR h));
         Eda.ELog Eda.INFO "=== STARTING ADVANCED EDA ===";
         Eda.ELog Eda.CRITICAL
           ("Dataset tidak ditemukan di " ++ str_path (Eda.INPUT_DATA_PATH h))] |}).
Proof.
  intros Hlib Hex. unfold Eda.main, Eda.init, Eda.run.
  rewrite eda_bind_assoc. unfold Eda.bind at 1, Eda.set_df. cbn [Eda.df Eda.log Eda.fresh].
  rewrite eda_bind_assoc, eda_bind_lib by exact Hlib.
  rewrite eda_bind_assoc, eda_bind_lib by exact Hlib.
  rewrite !eda_bind_logger. cbn [Eda.df Eda.log].
  unfold Eda.bind at 1. rewrite (load_data_exits_without_dataset h _ Hex).
  reflexivity.
Qed.

Lemma main_stops_without_dataset_witness :
  Eda.saved_figures (Eda.log (snd (Eda.main eda_host_without_dataset Eda.fresh))) = [] /\
  fst (Eda.main eda_host_without_dataset Eda.fresh) = Eda.Stop (Eda.SystemExit 1).
Proof.
  rewrite (main_stops_without_dataset eda_host_without_dataset eq_refl eq_refl).
  split; reflexivity.
Defined.

(** X23: when the dataset is read, has a [default] column and no library
    call raises, [run] returns normally with the labelled table loaded, and
    the figures it saves are, in this order: plots 1 and 2; plot 3 only if
    all six [PAY_] columns are there; plots 4, 5 and 6; plot 7 only if [SEX],
    [EDUCATION] and [MARRIAGE] are there; plot 8; and the two outlier plots,
    each only if a column matches.  A skipped plot never stops the ones after
    it. *)
Theorem run_saves_figures (h : Eda.host) (st : Eda.state) (frame : Eda.DataFrame) :
  Eda.library_returns h ->
  Eda.path_exists h (Eda.INPUT_DATA_PATH h) = true ->
  Eda.read_csv h (Eda.INPUT_DATA_PATH h) = Ret frame ->
  In "default" (Eda.columns frame) ->
  let loaded := Eda.set_column frame "Label" in
  let out := joinpath (Eda.OUTPUT_DIR h) in
  exists evs,
    Eda.run h st = (Eda.Done tt, {| Eda.df := Some loaded; Eda.log := Eda.log st ++ evs |}) /\
    Eda.saved_figures evs =
      [out "1_target_distribution.png"; out "2_feature_importance_corr.png"] ++
      (if forallb (Eda.has_column loaded) Eda.pay_cols
       then [out "3_payment_trend_analysis.png"] else []) ++
      [out "4_limit_balance_violin.png"; out "5_demographic_scatter.png";
       out "6_numerical_distributions.png"] ++
      (if forallb (Eda.has_column loaded) Eda.categorical_cols
       then [out "7_categorical_distributions.png"] else []) ++
      [out "8_correlation_heatmap.png"] ++
      (if existsb (Eda.str_contains "BILL_AMT") (Eda.columns loaded)
       then [out "9_outlier_bill.png"] else []) ++
      (if existsb (Eda.str_contains "PAY_AMT") (Eda.columns loaded)
       then [out "9_outlier_pay.png"] else []).
Proof.
  intros Hlib Hex Hread Hcol loaded out.
  pose (st1 :=
    {| Eda.df := Some loaded;
       Eda.log := (Eda.log st ++ [Eda.ELog Eda.INFO "=== STARTING ADVANCED EDA ==="]) ++
         [Eda.EReadCsv (Eda.INPUT_DATA_PATH h);
          Eda.ECall "Series.map" ["default"];
          Eda.ELog Eda.INFO ("Data dimuat: " ++ Eda.str_shape loaded)] |}).
  assert (Hrest : Eda.completes
            (Eda.bind (Eda.save_descriptive_stats h) (fun _ =>
             Eda.bind (Eda.plot_target_distribution h) (fun _ =>
             Eda.bind (Eda.plot_feature_correlation_ranking h) (fun _ =>
             Eda.bind (Eda.plot_payment_trend h) (fun _ =>
             Eda.bind (Eda.plot_limit_balance_violin h) (fun _ =>
             Eda.bind (Eda.plot_age_limit_interaction h) (fun _ =>
             Eda.bind (Eda.plot_numerical_distributions h) (fun _ =>
             Eda.bind (Eda.plot_categorical_distributions h) (fun _ =>
             Eda.bind (Eda.plot_correlation_heatmap h) (fun _ =>
             Eda.bind (Eda.plot_outlier_analysis h) (fun _ =>
             Eda.bind (Eda.logger Eda.INFO "=== EDA COMPLETED ===") (fun _ =>
               Eda.logger Eda.INFO
                 ("Semua plot telah disimpan di folder: " ++
                  str_path (Eda.OUTPUT_DIR h))))))))))))))
            st1
            ([] ++ [out "1_target_distribution.png"] ++
             [out "2_feature_importance_corr.png"] ++
             (if forallb (Eda.has_column loaded) Eda.pay_cols
              then [out "3_payment_trend_analysis.png"] else []) ++
             [out "4_limit_balance_violin.png"] ++
             [out "5_demographic_scatter.png"] ++
             [out "6_numerical_distributions.png"] ++
             (if forallb (Eda.has_column loaded) Eda.categorical_cols
              then [out "7_categorical_distributions.png"] else []) ++
             [out "8_correlation_heatmap.png"] ++
             ((if existsb (Eda.str_contains "BILL_AMT") (Eda.columns loaded)
               then [out "9_outlier_bill.png"] else []) ++
              (if existsb (Eda.str_contains "PAY_AMT") (Eda.columns loaded)
               then [out "9_outlier_pay.png"] else [])) ++ [])).
  { apply completes_seq.
    { destruct (save_descriptive_stats_run h st1 loaded Hlib eq_refl)
        as (evs & Hrun & _ & _ & Hs).
      exists evs. split; assumption. }
    intros s1 H1. change (Eda.df st1) with (Some loaded) in H1.
    apply completes_seq; [apply (plot_target_distribution_completes h s1 loaded Hlib H1) |].
    intros s2 H2. rewrite H1 in H2.
    apply completes_seq;
      [apply (plot_feature_correlation_ranking_completes h s2 loaded Hlib H2) |].
    intros s3 H3. rewrite H2 in H3.
    apply completes_seq; [apply (plot_payment_trend_completes h s3 loaded Hlib H3) |].
    intros s4 H4. rewrite H3 in H4.
    apply completes_seq; [apply (plot_limit_balance_violin_completes h s4 Hlib) |].
    intros s5 H5. rewrite H4 in H5.
    apply completes_seq; [apply (plot_age_limit_interaction_completes h s5 loaded Hlib H5) |].
    intros s6 H6. rewrite H5 in H6.
    apply completes_seq; [apply (plot_numerical_distributions_completes h s6 Hlib) |].
    intros s7 H7. rewrite H6 in H7.
    apply completes_seq;
      [apply (plot_categorical_distributions_completes h s7 loaded Hlib H7) |].
    intros s8 H8. rewrite H7 in H8.
    apply completes_seq; [apply (plot_correlation_heatmap_completes h s8 loaded Hlib H8) |].
    intros s9 H9. rewrite H8 in H9.
    apply completes_seq; [apply (plot_outlier_analysis_completes h s9 loaded Hlib H9) |].
    intros s10 H10. destruct s10 as [d10 l10].
    exists [Eda.ELog Eda.INFO "=== EDA COMPLETED ===";
            Eda.ELog Eda.INFO
              ("Semua plot telah disimpan di folder: " ++ str_path (Eda.OUTPUT_DIR h))].
    split; [| reflexivity].
    rewrite <- app_two. reflexivity. }
  destruct Hrest as (evs & Hrun & Hfigs).
  exists ([Eda.ELog Eda.INFO "=== STARTING ADVANCED EDA ===";
           Eda.EReadCsv (Eda.INPUT_DATA_PATH h);
           Eda.ECall "Series.map" ["default"];
           Eda.ELog Eda.INFO ("Data dimuat: " ++ Eda.str_shape loaded)] ++ evs).
  split.
  - unfold Eda.run. rewrite eda_bind_logger.
    rewrite (eda_bind_done (Eda.load_data h) _ _ _ _
               (load_data_run h _ frame Hlib Hex Hread Hcol)).
    cbn [Eda.df Eda.log]. fold loaded. fold st1. rewrite Hrun.
    unfold st1. cbn [Eda.df Eda.log]. rewrite <- !app_assoc. reflexivity.
  - rewrite saved_figures_app, Hfigs.
    cbn [Eda.saved_figures app]. rewrite app_nil_r, <- ?app_assoc. reflexivity.
Qed.

Example run_demo_figures :
  Eda.saved_figures
    (Eda.log (snd (Eda.run (eda_demo_host ["SEX"; "BILL_AMT1"; "default"]) Eda.fresh))) =
  map (fun f => ["srv"; "app"; "Eksperimen"; "analysis_results"; f])
    ["1_target_distribution.png"; "2_feature_importance_corr.png";
     "4_limit_balance_violin.png"; "5_demographic_scatter.png";
     "6_numerical_distributions.png"; "8_correlation_heatmap.png";
     "9_outlier_bill.png"].
Proof. vm_compute. reflexivity. Qed.

Lemma run_saves_figures_witness :
  fst (Eda.run (eda_demo_host ["SEX"; "BILL_AMT1"; "default"]) Eda.fresh) = Eda.Done tt.
Proof.
  destruct (run_saves_figures (eda_demo_host ["SEX"; "BILL_AMT1"; "default"]) Eda.fresh
              {| Eda.columns := ["SEX"; "BILL_AMT1"; "default"]; Eda.nrows := 3 |}
              eq_refl eq_refl eq_refl (or_intror (or_intror (or_introl eq_refl))))
    as (evs & Hrun & _).
  rewrite Hrun. reflexivity.
Defined.

(** ** The colours of the correlation ranking *)

(** Once a coefficient is positive, all the later ones of an ascending list
    are. *)
Lemma bar_colors_red_tail (x : float) (rest : list float) :
  Sorted (fun a b => (a <=? b)%float = true) (x :: rest) ->
  (0 <? x)%float = true ->
  Eda.bar_colors (x :: rest) = repeat "#e74c3c" (S (List.length rest)).
Proof.
  revert x. induction rest as [| y rest IH]; intros x Hs Hx.
  - unfold Eda.bar_colors. cbn [map List.length repeat]. rewrite Hx. reflexivity.
  - inversion Hs as [| ? ? Hs' Hhd]; subst. inversion Hhd as [| ? ? Hxy]; subst.
    change (Eda.bar_colors (x :: y :: rest)) with
      ((if (0 <? x)%float then "#e74c3c" else "#2ecc71") :: Eda.bar_colors (y :: rest)).
    rewrite Hx, (IH y Hs' (float_ltb_leb_trans _ _ _ Hx Hxy)). reflexivity.
Qed.

(** X24: the bars of the correlation ranking get one colour each, red for a
    coefficient above zero and green otherwise; for coefficients in ascending
    order (as [sort_values] leaves them, none of them NaN) the list splits
    into the coefficients not above zero followed by those above zero, and
    the colours are as many greens as the former followed by as many reds as
    the latter. *)
Theorem bar_colors_two_blocks (values : list float) :
  List.length (Eda.bar_colors values) = List.length values /\
  (forall i x, nth_error values i = Some x ->
     nth_error (Eda.bar_colors values) i =
     Some (if (0 <? x)%float then "#e74c3c" else "#2ecc71")) /\
  (Sorted (fun a b => (a <=? b)%float = true) values ->
   exists lo hi,
     values = lo ++ hi /\
     Forall (fun x => (0 <? x)%float = false) lo /\
     Forall (fun x => (0 <? x)%float = true) hi /\
     Eda.bar_colors values =
     repeat "#2ecc71" (List.length lo) ++ repeat "#e74c3c" (List.length hi)).
Proof.
  split; [apply length_map |]. split.
  - intros i x Hx. unfold Eda.bar_colors. rewrite nth_error_map, Hx. reflexivity.
  - induction values as [| x rest IH]; intros Hs.
    + exists [], []. repeat split; constructor.
    + destruct (0 <? x)%float eqn:Hx.
      * exists [], (x :: rest). split; [reflexivity |]. split; [constructor |].
        split; [| exact (bar_colors_red_tail x rest Hs Hx)].
        clear IH. revert x Hs Hx. induction rest as [| y rest IH]; intros x Hs Hx.
        -- constructor; [exact Hx | constructor].
        -- inversion Hs as [| ? ? Hs' Hhd]; subst. inversion Hhd as [| ? ? Hxy]; subst.
           constructor; [exact Hx |].
           apply IH; [exact Hs' | exact (float_ltb_leb_trans _ _ _ Hx Hxy)].
      * inversion Hs as [| ? ? Hs' _]; subst.
        destruct (IH Hs') as (lo & hi & Hv & Hlo & Hhi & Hc).
        exists (x :: lo), hi. split; [cbn [app]; rewrite <- Hv; reflexivity |].
        split; [constructor; assumption |]. split; [exact Hhi |].
        change (Eda.bar_colors (x :: rest)) with
          ((if (0 <? x)%float then "#e74c3c" else "#2ecc71") :: Eda.bar_colors rest).
        rewrite Hx, Hc. reflexivity.
Qed.

Lemma bar_colors_two_blocks_witness :
  exists lo hi,
    [(-0.5)%float; 0%float; 0.25%float] = lo ++ hi /\
    Forall (fun x => (0 <? x)%float = false) lo /\
    Forall (fun x => (0 <? x)%float = true) hi /\
    Eda.bar_colors [(-0.5)%float; 0%float; 0.25%float] =
    repeat "#2ecc71" (List.length lo) ++ repeat "#e74c3c" (List.length hi).
Proof.
  refine (proj2 (proj2 (bar_colors_two_blocks [(-0.5)%float; 0%float; 0.25%float])) _).
  repeat constructor.
Defined.

Example bar_colors_run :
  Eda.bar_colors [(-0.5)%float; 0%float; 0.25%float] =
  ["#2ecc71"; "#2ecc71"; "#e74c3c"].
Proof. reflexivity. Qed.
